(** * A blog REST backend: authentication flow and ownership-gated operations

    Shallow embedding of the FastAPI application under [app/]:
    [config], [database], [models], [crud], [dependencies.auth] and the
    [auth] and [blogs] routers.  The two hosted services the application
    talks to (the relational data store reached through the Supabase query
    builder, and the authentication provider) and the JWT library are
    modelled by executable reference semantics, so that every handler can be
    run on a concrete world. *)

From Stdlib Require Import ZArith.
From stdpp Require Import gmap strings list fin_maps pretty sorting.

Open Scope string_scope.
Open Scope Z_scope.

(** ** JSON values and rows *)

(** A cell of a row or a value of a request payload.  Timestamps are POSIX
    seconds ([VInt]); identifiers are strings in the canonical form the
    database prints them in.  [VObj] is an embedded related row, as a
    [select("*, profiles(username)")] returns it. *)
Inductive value :=
  | VNull
  | VStr (s : string)
  | VBool (b : bool)
  | VInt (n : Z)
  | VObj (fields : list (string * string)).

#[global] Instance value_eq_dec : EqDecision value.
Proof. solve_decision. Defined.

(** A Python [dict] with string keys: a row of a table, an insert or update
    payload, the claims of a token. *)
Abbreviation dict := (gmap string value).

(** Python's [str(x)].  An object prints its keys and values quoted, as
    [repr] quotes strings that hold no quote or escape. *)
Fixpoint repr_fields (fields : list (string * string)) : string :=
  match fields with
  | [] => ""
  | [(k, v)] => "'" +:+ k +:+ "': '" +:+ v +:+ "'"
  | (k, v) :: rest =>
      "'" +:+ k +:+ "': '" +:+ v +:+ "', " +:+ repr_fields rest
  end.

Definition str (v : value) : string :=
  match v with
  | VNull => "None"
  | VStr s => s
  | VBool true => "True"
  | VBool false => "False"
  | VInt n => pretty n
  | VObj fields => "{" +:+ repr_fields fields +:+ "}"
  end.

(** ** Exceptions and the handler monad *)

Inductive Exn :=
  | HTTPException (status_code : Z) (detail : string)
                  (headers : list (string * string))
  | AuthApiError (message : string)
  | JWTError (message : string)
  | APIError (message : string)
  | ValidationError (message : string)
  | KeyError (key : string)
  | AttributeError (name : string)
  | IndexError.

#[global] Instance Exn_eq_dec : EqDecision Exn.
Proof. solve_decision. Defined.

Inductive Result (A : Type) :=
  | Return (a : A)
  | Raise (e : Exn).
Arguments Return {A} a.
Arguments Raise {A} e.

(** [config.Settings]: [secret_key] has no default, the other two have. *)
Record Settings := {
  secret_key : string;
  algorithm : string;
  access_token_expire_minutes : Z;
}.

Definition default_algorithm : string := "HS256".
Definition default_access_token_expire_minutes : Z := 60.

(** [database.py]: the two module-level clients. *)
Inductive Client :=
  | get_supabase        (* anon key, respects row level security *)
  | get_supabase_admin. (* service key, bypasses it *)

Definition supabase : Client := get_supabase.
Definition supabase_admin : Client := get_supabase_admin.

#[global] Instance Client_eq_dec : EqDecision Client.
Proof. solve_decision. Defined.

(** What the authentication provider answers to [auth.sign_up] and to
    [auth.sign_in_with_password]: it raises [AuthApiError], or it returns a
    response whose [user] may be missing. *)
Record AuthUser := { auth_user_id : string }.
Record AuthResponse := { user : option AuthUser }.

Inductive AuthReply :=
  | ReplyError (message : string)
  | ReplyResponse (response : AuthResponse).

(** Requests issued to the two external services, in the order issued. *)
Inductive Operation :=
  | OpSelect (columns : string)
  | OpInsert (payload : dict)
  | OpUpdate (payload : dict)
  | OpDelete.

Inductive Event :=
  | EvStore (db : Client) (table : string) (op : Operation)
            (filters : list (string * value))
  | EvSignUp (email password : string)
  | EvSignIn (email password : string).

(** The state a request runs against. *)
Record World := {
  settings : Settings;
  now : Z;                      (* [datetime.now(timezone.utc)], in seconds *)
  blogs : list dict;            (* table "blogs" *)
  profiles : list dict;         (* table "profiles" *)
  next_id : N;                  (* source of the store's default ids *)
  sign_up_reply : string → string → AuthReply;
  sign_in_reply : string → string → AuthReply;
  trace : list Event;           (* oldest first *)
}.

(** State and exceptions: an exception keeps the state reached so far, as
    a Python exception does not undo the calls made before it. *)
Definition M (A : Type) : Type := World → Result A * World.

#[global] Instance M_ret : MRet M := λ A a w, (Return a, w).
#[global] Instance M_bind : MBind M := λ A B f m w,
  match m w with
  | (Return a, w') => f a w'
  | (Raise e, w') => (Raise e, w')
  end.

Definition raise {A} (e : Exn) : M A := λ w, (Raise e, w).
Definition get_world : M World := λ w, (Return w, w).
Definition put_world (w' : World) : M unit := λ _, (Return tt, w').

(** [try: m  except <class>: handler]: [handler e] is [None] when [e] is
    not of the class the clause names. *)
Definition try_except {A} (m : M A) (handler : Exn → option (M A)) : M A :=
  λ w, match m w with
       | (Return a, w') => (Return a, w')
       | (Raise e, w') =>
           match handler e with
           | Some h => h w'
           | None => (Raise e, w')
           end
       end.

Definition add_events (evs : list Event) (w : World) : World :=
  {| settings := settings w; now := now w; blogs := blogs w;
     profiles := profiles w; next_id := next_id w;
     sign_up_reply := sign_up_reply w; sign_in_reply := sign_in_reply w;
     trace := trace w ++ evs |}.

Definition log (e : Event) : M unit := λ w, (Return tt, add_events [e] w).

(** ** The data store behind the Supabase query builder

    [db.table(t).select(c).eq(k, v).order(k, desc).range(a, b).execute()]
    builds a request; [execute] sends it.  The store is modelled as two row
    lists without constraints or access policies: the schema is not part of
    the application's source. *)

Record APIResponse := { data : list dict }.

Record Query := {
  q_client : Client;
  q_table : string;
  q_op : Operation;
  q_filters : list (string * value);
  q_order : option (string * bool);
  q_range : option (Z * Z);
}.

Module postgrest.

Definition table (db : Client) (name : string) : Client * string := (db, name).

Definition from_table (t : Client * string) (op : Operation) : Query :=
  {| q_client := t.1; q_table := t.2; q_op := op;
     q_filters := []; q_order := None; q_range := None |}.

Definition select (columns : string) (t : Client * string) : Query :=
  from_table t (OpSelect columns).
Definition insert (payload : dict) (t : Client * string) : Query :=
  from_table t (OpInsert payload).
Definition update (payload : dict) (t : Client * string) : Query :=
  from_table t (OpUpdate payload).
Definition delete (t : Client * string) : Query :=
  from_table t OpDelete.

Definition eq (column : string) (v : value) (q : Query) : Query :=
  {| q_client := q_client q; q_table := q_table q; q_op := q_op q;
     q_filters := q_filters q ++ [(column, v)];
     q_order := q_order q; q_range := q_range q |}.

Definition order (column : string) (desc : bool) (q : Query) : Query :=
  {| q_client := q_client q; q_table := q_table q; q_op := q_op q;
     q_filters := q_filters q;
     q_order := Some (column, desc); q_range := q_range q |}.

Definition range (start stop : Z) (q : Query) : Query :=
  {| q_client := q_client q; q_table := q_table q; q_op := q_op q;
     q_filters := q_filters q;
     q_order := q_order q; q_range := Some (start, stop) |}.

End postgrest.

(** Method chaining, read left to right as in the source. *)
Notation "x |> f" := (f x) (at level 45, left associativity, only parsing).

(** A row passes the filters when every named column holds the value. *)
Definition matches (filters : list (string * value)) (r : dict) : bool :=
  forallb (λ f, bool_decide (r !! f.1 = Some f.2)) filters.

(** Ordering key of a timestamp column.  A missing or null cell sorts as
    the database sorts NULL: above every value. *)
Definition sort_key (column : string) (r : dict) : option Z :=
  match r !! column with
  | Some (VInt n) => Some n
  | _ => None
  end.

Definition key_le (a b : option Z) : Prop :=
  match a, b with
  | _, None => True
  | None, Some _ => False
  | Some x, Some y => x ≤ y
  end.

#[global] Instance key_le_dec a b : Decision (key_le a b).
Proof. destruct a, b; simpl; apply _. Defined.

(** [r1] may stand before [r2] in the answer. *)
Definition row_before (column : string) (desc : bool) (r1 r2 : dict) : Prop :=
  if desc then key_le (sort_key column r2) (sort_key column r1)
  else key_le (sort_key column r1) (sort_key column r2).

#[global] Instance row_before_dec column desc r1 r2 :
  Decision (row_before column desc r1 r2).
Proof. unfold row_before. destruct desc; apply _. Defined.

Definition apply_order (o : option (string * bool)) (rows : list dict)
  : list dict :=
  match o with
  | Some (column, desc) => merge_sort (row_before column desc) rows
  | None => rows
  end.

(** [range(start, stop)] asks for offset [start] and limit
    [stop - start + 1]; the store rejects a negative offset or limit. *)
Definition apply_range (r : option (Z * Z)) (rows : list dict)
  : option (list dict) :=
  match r with
  | None => Some rows
  | Some (start, stop) =>
      if bool_decide (0 ≤ start ∧ 0 ≤ stop - start + 1)
      then Some (take (Z.to_nat (stop - start + 1)) (drop (Z.to_nat start) rows))
      else None
  end.

(** The embedded resource of [select("*, profiles(username)")]: the
    username of the profile the row's [author_id] refers to, or null. *)
Definition embed_profile (profs : list dict) (r : dict) : dict :=
  let related :=
    match r !! "author_id" with
    | Some a => head (filter (λ p, p !! "id" = Some a) profs)
    | None => None
    end in
  <["profiles" :=
      match related with
      | Some p =>
          match p !! "username" with
          | Some (VStr u) => VObj [("username", u)]
          | _ => VNull
          end
      | None => VNull
      end]> r.

Definition table_rows (name : string) (w : World) : option (list dict) :=
  if bool_decide (name = "blogs") then Some (blogs w)
  else if bool_decide (name = "profiles") then Some (profiles w)
  else None.

Definition set_table_rows (name : string) (rows : list dict) (n : N)
    (w : World) : World :=
  {| settings := settings w; now := now w;
     blogs := if bool_decide (name = "blogs") then rows else blogs w;
     profiles := if bool_decide (name = "profiles") then rows else profiles w;
     next_id := n;
     sign_up_reply := sign_up_reply w; sign_in_reply := sign_in_reply w;
     trace := trace w |}.

(** Columns the store fills in when an insert leaves them out. *)
Definition column_defaults (name : string) (w : World) : dict :=
  if bool_decide (name = "blogs") then
    {[ "id" := VStr (pretty (next_id w));
       "created_at" := VInt (now w);
       "updated_at" := VInt (now w) ]}
  else
    {[ "created_at" := VInt (now w) ]}.

Definition run_select (columns : string) (q : Query) (rows : list dict)
    (w : World) : Result APIResponse :=
  let found := apply_order (q_order q) (filter (λ r, matches (q_filters q) r) rows) in
  match apply_range (q_range q) found with
  | None => Raise (APIError "Requested range not satisfiable")
  | Some page =>
      if bool_decide (columns = "*") then Return {| data := page |}
      else if bool_decide (columns = "*, profiles(username)") then
        Return {| data := embed_profile (profiles w) <$> page |}
      else Raise (APIError "Could not parse select parameter")
  end.

Definition execute (q : Query) : M APIResponse :=
  _ ← log (EvStore (q_client q) (q_table q) (q_op q) (q_filters q));
  w ← get_world;
  match table_rows (q_table q) w with
  | None => raise (APIError "relation does not exist")
  | Some rows =>
      match q_op q with
      | OpSelect columns =>
          match run_select columns q rows w with
          | Return r => mret r
          | Raise e => raise e
          end
      | OpInsert payload =>
          let r := payload ∪ column_defaults (q_table q) w in
          _ ← put_world (set_table_rows (q_table q) (rows ++ [r])
                           (N.succ (next_id w)) w);
          mret {| data := [r] |}
      | OpUpdate payload =>
          let rows' := (λ r, if matches (q_filters q) r then payload ∪ r else r)
                         <$> rows in
          _ ← put_world (set_table_rows (q_table q) rows' (next_id w) w);
          mret {| data := (payload ∪.) <$>
                            filter (λ r, matches (q_filters q) r) rows |}
      | OpDelete =>
          _ ← put_world (set_table_rows (q_table q)
                           (filter (λ r, ¬ matches (q_filters q) r) rows)
                           (next_id w) w);
          mret {| data := filter (λ r, matches (q_filters q) r) rows |}
      end
  end.

(** The authentication provider: the call is recorded and answered by the
    world's oracle. *)
Definition auth_sign_up (db : Client) (email password : string)
  : M AuthResponse :=
  _ ← log (EvSignUp email password);
  w ← get_world;
  match sign_up_reply w email password with
  | ReplyError msg => raise (AuthApiError msg)
  | ReplyResponse r => mret r
  end.

Definition auth_sign_in_with_password (db : Client) (email password : string)
  : M AuthResponse :=
  _ ← log (EvSignIn email password);
  w ← get_world;
  match sign_in_reply w email password with
  | ReplyError msg => raise (AuthApiError msg)
  | ReplyResponse r => mret r
  end.

(** ** The JWT library ([jose.jwt])

    A token string is modelled up to parsing: either it is not a compact
    JWS with a JSON object as payload, or it carries an algorithm, claims
    and a signature.  Signatures are symbolic: a signature verifies under a
    key and algorithm exactly when it was made under them over the same
    claims.  Of the registered claims only [exp] and [sub], the two the
    application uses, are validated. *)
Module jwt.

Inductive signature :=
  | MAC (key alg : string) (claims : dict)
  | Forged (bytes : string).

Inductive token :=
  | Malformed (text : string)
  | JWS (alg : string) (claims : dict) (sig : signature).

#[global] Instance signature_eq_dec : EqDecision signature.
Proof. solve_decision. Defined.
#[global] Instance token_eq_dec : EqDecision token.
Proof. solve_decision. Defined.

Definition encode (claims : dict) (key : string) (algorithm : string) : token :=
  JWS algorithm claims (MAC key algorithm claims).

(** [decode] raises [JWTError] (of which the expiry and claims errors are
    subclasses) or returns the claims.  A token is expired when its [exp]
    lies before the current time. *)
Definition decode (tok : token) (key : string) (algorithms : list string)
    (current_time : Z) : Result dict :=
  match tok with
  | Malformed _ => Raise (JWTError "Not enough segments")
  | JWS alg claims sig =>
      if negb (bool_decide (alg ∈ algorithms))
      then Raise (JWTError "The specified alg value is not allowed")
      else if negb (bool_decide (sig = MAC key alg claims))
      then Raise (JWTError "Signature verification failed.")
      else
        let checked_sub :=
          match claims !! "sub" with
          | None | Some (VStr _) => Return claims
          | Some _ => Raise (JWTError "Subject must be a string.")
          end in
        match claims !! "exp" with
        | None => checked_sub
        | Some (VInt exp) =>
            if bool_decide (exp < current_time)
            then Raise (JWTError "Signature has expired.")
            else checked_sub
        | Some _ =>
            Raise (JWTError "Expiration Time claim (exp) must be an integer.")
        end
  end.

End jwt.

(** ** [models]: the request and response schemas *)

(** [uuid.UUID]; [UUID.str] is Python's [str(u)].  Identifiers are kept in
    canonical form, so parsing one and printing it back is the identity. *)
Module UUID.
Record t := make { str : string }.
#[global] Instance eq_dec : EqDecision t.
Proof. solve_decision. Defined.
End UUID.

Module UserCreate.
Record t := make { username : string; email : string; password : string }.
End UserCreate.

Module UserResponse.
Record t := make {
  username : string;
  email : string;
  id : UUID.t;
  created_at : Z;
}.

(** The constructor applied to an unpacked row: every declared field must be present with its
    type, the username within its length bounds; other keys are ignored.
    The store hands back identifiers, e-mail addresses and timestamps in
    canonical form, whose format checks always pass. *)
Definition validate (user : dict) : Result t :=
  match user !! "username", user !! "email", user !! "id",
        user !! "created_at" with
  | Some (VStr u), Some (VStr e), Some (VStr i), Some (VInt c) =>
      if bool_decide (3 ≤ String.length u ≤ 50)%nat
      then Return (make u e (UUID.make i) c)
      else Raise (ValidationError "username")
  | _, _, _, _ => Raise (ValidationError "UserResponse")
  end.
End UserResponse.

Module Token.
Record t := make { access_token : jwt.token; token_type : string }.
End Token.

Module TokenData.
Record t := make { user_id : option string }.
End TokenData.

Module BlogCreate.
Record t := make { title : string; body : string; published : bool }.

Definition model_dump (blog : t) : dict :=
  {[ "title" := VStr (title blog);
     "body" := VStr (body blog);
     "published" := VBool (published blog) ]}.
End BlogCreate.

Module BlogUpdate.
Record t := make {
  title : option string;
  body : option string;
  published : option bool;
}.

(** One optional field of [model_dump(exclude_none=True)]. *)
Definition dump_field (key : string) (v : option value) (d : dict) : dict :=
  match v with
  | Some x => <[key := x]> d
  | None => d
  end.

Definition model_dump_exclude_none (blog : t) : dict :=
  dump_field "title" (VStr <$> title blog)
    (dump_field "body" (VStr <$> body blog)
       (dump_field "published" (VBool <$> published blog) ∅)).
End BlogUpdate.

(** Python truth value of an [Optional[dict]] and of a [dict]. *)
Definition truthy_dict (d : dict) : bool := negb (bool_decide (d = ∅)).

Definition truthy (o : option dict) : bool :=
  match o with
  | Some d => truthy_dict d
  | None => false
  end.

(** [if not x: raise e]; past it [x] is a non-empty dict. *)
Definition raise_if_not (x : option dict) (e : Exn) : M dict :=
  match x with
  | Some d => if truthy x then mret d else raise e
  | None => raise e
  end.

(** [d[key]] *)
Definition getitem (d : dict) (key : string) : M value :=
  match d !! key with
  | Some v => mret v
  | None => raise (KeyError key)
  end.

(** [data[0]] *)
Definition first_row (rows : list dict) : M dict :=
  match rows with
  | r :: _ => mret r
  | [] => raise IndexError
  end.

(** [data[0] if data else None] *)
Definition first_or_none (rows : list dict) : option dict :=
  match rows with
  | r :: _ => Some r
  | [] => None
  end.

(** ** [crud.user] *)
Module crud_user.

Definition get_user_by_id (db : Client) (user_id : string) : M (option dict) :=
  result ← postgrest.table db "profiles" |> postgrest.select "*"
             |> postgrest.eq "id" (VStr user_id) |> execute;
  mret (first_or_none (data result)).

Definition get_user_by_email (db : Client) (email : string) : M (option dict) :=
  result ← postgrest.table db "profiles" |> postgrest.select "*"
             |> postgrest.eq "email" (VStr email) |> execute;
  mret (first_or_none (data result)).

Definition create_user_profile (db : Client) (user_id username email : string)
  : M dict :=
  result ← postgrest.table db "profiles"
             |> postgrest.insert {[ "id" := VStr user_id;
                                    "username" := VStr username;
                                    "email" := VStr email ]}
             |> execute;
  first_row (data result).

End crud_user.

(** ** [crud.blog] *)
Module crud_blog.

Definition get_blog (db : Client) (blog_id : string) : M (option dict) :=
  result ← postgrest.table db "blogs" |> postgrest.select "*"
             |> postgrest.eq "id" (VStr blog_id) |> execute;
  mret (first_or_none (data result)).

Definition get_blogs (db : Client) (skip limit : Z) (published_only : bool)
  : M (list dict) :=
  let query := postgrest.table db "blogs"
                 |> postgrest.select "*, profiles(username)" in
  let query := if published_only
               then query |> postgrest.eq "published" (VBool true)
               else query in
  result ← query |> postgrest.order "created_at" true
                 |> postgrest.range skip (skip + limit - 1)
                 |> execute;
  mret (data result).

Definition get_blogs_by_author (db : Client) (author_id : string)
  : M (list dict) :=
  result ← postgrest.table db "blogs" |> postgrest.select "*"
             |> postgrest.eq "author_id" (VStr author_id)
             |> postgrest.order "created_at" true
             |> execute;
  mret (data result).

Definition create_blog (db : Client) (blog : BlogCreate.t) (author_id : string)
  : M dict :=
  let payload := <["author_id" := VStr author_id]> (BlogCreate.model_dump blog) in
  result ← postgrest.table db "blogs" |> postgrest.insert payload |> execute;
  first_row (data result).

Definition update_blog (db : Client) (blog_id : string) (blog : BlogUpdate.t)
  : M (option dict) :=
  let payload := BlogUpdate.model_dump_exclude_none blog in
  if negb (truthy_dict payload) then
    get_blog db blog_id
  else
    result ← postgrest.table db "blogs" |> postgrest.update payload
               |> postgrest.eq "id" (VStr blog_id) |> execute;
    mret (first_or_none (data result)).

Definition delete_blog (db : Client) (blog_id : string) : M bool :=
  result ← postgrest.table db "blogs" |> postgrest.delete
             |> postgrest.eq "id" (VStr blog_id) |> execute;
  mret (0 <? length (data result))%nat.

End crud_blog.

(** ** [dependencies.auth] *)

(** [timedelta(minutes=m)], in seconds. *)
Definition timedelta_minutes (m : Z) : Z := 60 * m.

(** [expires_delta or default]: Python's [or] yields its right operand when
    the left one is [None] or false, and [timedelta(0)] is false. *)
Definition or_timedelta (expires_delta : option Z) (default : Z) : Z :=
  match expires_delta with
  | Some d => if bool_decide (d = 0) then default else d
  | None => default
  end.

Definition create_access_token (data : dict) (expires_delta : option Z)
  : M jwt.token :=
  w ← get_world;
  let to_encode := data in
  let expire := now w + or_timedelta expires_delta
                  (timedelta_minutes (access_token_expire_minutes (settings w))) in
  let to_encode := <["exp" := VInt expire]> to_encode in
  mret (jwt.encode to_encode (secret_key (settings w)) (algorithm (settings w))).

(** [jwt.decode] reads the clock when it validates [exp]. *)
Definition jwt_decode (token : jwt.token) (key : string)
    (algorithms : list string) : M dict :=
  λ w, (jwt.decode token key algorithms (now w), w).

Definition decode_access_token (token : jwt.token) : M (option TokenData.t) :=
  w ← get_world;
  try_except
    (payload ← jwt_decode token (secret_key (settings w))
                 [algorithm (settings w)];
     match payload !! "sub" with
     | None | Some VNull => mret None
     | Some (VStr user_id) => mret (Some (TokenData.make (Some user_id)))
     | Some _ => raise (ValidationError "TokenData")
     end)
    (λ e, match e with
          | JWTError _ => Some (mret None)
          | _ => None
          end).

Definition credentials_exception : Exn :=
  HTTPException 401 "Could not validate credentials"
    [("WWW-Authenticate", "Bearer")].

(** [OAuth2PasswordBearer]: the bearer credentials of the request, or 401
    when the request has none. *)
Definition oauth2_scheme (authorization : option jwt.token) : M jwt.token :=
  match authorization with
  | Some token => mret token
  | None => raise (HTTPException 401 "Not authenticated"
                     [("WWW-Authenticate", "Bearer")])
  end.

Definition get_current_user (token : jwt.token) : M UserResponse.t :=
  token_data ← decode_access_token token;
  match token_data with
  | None => raise credentials_exception
  | Some token_data =>
      (* the query builder formats its operand with [str] *)
      user ← crud_user.get_user_by_id supabase
               (default "None" (TokenData.user_id token_data));
      match user with
      | None => raise credentials_exception
      | Some user =>
          match UserResponse.validate user with
          | Return u => mret u
          | Raise e => raise e
          end
      end
  end.

(** ** [routers.auth] *)
Module routers_auth.

Definition register (user_data : UserCreate.t) : M Token.t :=
  (* Step 1 - check for duplicate email *)
  existing ← crud_user.get_user_by_email supabase_admin
               (UserCreate.email user_data);
  if truthy existing then
    raise (HTTPException 400 "An account with this email already exists" [])
  else
    (* Step 2 - create the auth user *)
    auth_response ←
      try_except
        (auth_sign_up supabase_admin (UserCreate.email user_data)
           (UserCreate.password user_data))
        (λ e, match e with
              | AuthApiError msg => Some (raise (HTTPException 400 msg []))
              | _ => None
              end);
    match user auth_response with
    | None =>
        raise (HTTPException 500
                 "Registration failed — Supabase Auth did not return a user" [])
    | Some auth_user =>
        (* Step 3 - create the profile *)
        let user_id := auth_user_id auth_user in
        _ ← crud_user.create_user_profile supabase_admin user_id
              (UserCreate.username user_data) (UserCreate.email user_data);
        (* Step 4 - return a JWT *)
        access_token ← create_access_token {[ "sub" := VStr user_id ]} None;
        mret (Token.make access_token "bearer")
    end.

Definition login (username password : string) : M Token.t :=
  auth_response ←
    try_except
      (auth_sign_in_with_password supabase username password)
      (λ e, match e with
            | AuthApiError _ =>
                Some (raise (HTTPException 401 "Invalid email or password"
                               [("WWW-Authenticate", "Bearer")]))
            | _ => None
            end);
  match user auth_response with
  | None => raise (AttributeError "id")   (* [None.id] *)
  | Some auth_user =>
      let user_id := auth_user_id auth_user in
      access_token ← create_access_token {[ "sub" := VStr user_id ]} None;
      mret (Token.make access_token "bearer")
  end.

Definition get_me (current_user : UserResponse.t) : M UserResponse.t :=
  mret current_user.

End routers_auth.

(** ** [routers.blogs] *)
Module routers_blogs.

Definition get_blogs (skip limit : Z) : M (list dict) :=
  crud_blog.get_blogs supabase skip limit true.

Definition get_my_blogs (current_user : UserResponse.t) : M (list dict) :=
  crud_blog.get_blogs_by_author supabase
    (UUID.str (UserResponse.id current_user)).

Definition get_blog (blog_id : string) : M dict :=
  blog ← crud_blog.get_blog supabase blog_id;
  blog ← raise_if_not blog
           (HTTPException 404
              ("Blog with id '" +:+ blog_id +:+ "' not found") []);
  mret blog.

Definition create_blog (blog : BlogCreate.t) (current_user : UserResponse.t)
  : M dict :=
  crud_blog.create_blog supabase blog
    (UUID.str (UserResponse.id current_user)).

Definition update_blog (blog_id : string) (blog : BlogUpdate.t)
    (current_user : UserResponse.t) : M (option dict) :=
  existing ← crud_blog.get_blog supabase blog_id;
  existing ← raise_if_not existing (HTTPException 404 "Blog not found" []);
  author_id ← getitem existing "author_id";
  if negb (bool_decide
             (str author_id = UUID.str (UserResponse.id current_user)))
  then raise (HTTPException 403 "You are not the author of this blog" [])
  else
    updated ← crud_blog.update_blog supabase blog_id blog;
    mret updated.

Definition delete_blog (blog_id : string) (current_user : UserResponse.t)
  : M unit :=
  existing ← crud_blog.get_blog supabase blog_id;
  existing ← raise_if_not existing (HTTPException 404 "Blog not found" []);
  author_id ← getitem existing "author_id";
  if negb (bool_decide
             (str author_id = UUID.str (UserResponse.id current_user)))
  then raise (HTTPException 403 "You are not the author of this blog" [])
  else
    _ ← crud_blog.delete_blog supabase blog_id;
    mret tt.

End routers_blogs.

(** ** [routers.users] *)
Module routers_users.

Definition get_user (user_id : string) : M dict :=
  user ← crud_user.get_user_by_id supabase user_id;
  user ← raise_if_not user
           (HTTPException 404
              ("User with id '" +:+ user_id +:+ "' not found") []);
  mret user.

End routers_users.

(** ** [main] *)
Definition health_check : M dict := mret {[ "status" := VStr "ok" ]}.

(** ** The HTTP surface

    What the framework makes of a handler: the route's status code on
    return, the exception's own status, detail and headers on
    [HTTPException], and 500 on any other exception.  Dependencies run
    before the handler.  A request body reaches its handler as an instance
    of the handler's schema, and the rows handed back are taken to fit the
    response schema: the framework's validation of either is not part of
    the model. *)
Inductive Response (A : Type) :=
  | Success (status_code : Z) (content : A)
  | Failure (status_code : Z) (detail : string)
            (headers : list (string * string)).
Arguments Success {A} status_code content.
Arguments Failure {A} status_code detail headers.

Definition status {A} (r : Response A) : Z :=
  match r with
  | Success c _ => c
  | Failure c _ _ => c
  end.

Definition serve {A} (status_code : Z) (handler : M A)
  : World → Response A * World :=
  λ w, match handler w with
       | (Return a, w') => (Success status_code a, w')
       | (Raise (HTTPException c d h), w') => (Failure c d h, w')
       | (Raise _, w') => (Failure 500 "Internal Server Error" [], w')
       end.

(** [response_model=BlogResponse] on a handler that returned [None]. *)
Definition response_model (content : option dict) : M dict :=
  match content with
  | Some row => mret row
  | None => raise (ValidationError "BlogResponse")
  end.

(** [Depends(get_current_user)], itself depending on [oauth2_scheme]. *)
Definition current_user_dependency (authorization : option jwt.token)
  : M UserResponse.t :=
  token ← oauth2_scheme authorization;
  get_current_user token.

Definition POST_auth_register (user_data : UserCreate.t) :=
  serve 201 (routers_auth.register user_data).

Definition POST_auth_login (username password : string) :=
  serve 200 (routers_auth.login username password).

Definition GET_auth_me (authorization : option jwt.token) :=
  serve 200 (current_user ← current_user_dependency authorization;
             routers_auth.get_me current_user).

Definition GET_blogs (skip limit : Z) :=
  serve 200 (routers_blogs.get_blogs skip limit).

Definition GET_blogs_me (authorization : option jwt.token) :=
  serve 200 (current_user ← current_user_dependency authorization;
             routers_blogs.get_my_blogs current_user).

Definition GET_blog (blog_id : string) :=
  serve 200 (routers_blogs.get_blog blog_id).

Definition POST_blogs (authorization : option jwt.token) (blog : BlogCreate.t) :=
  serve 201 (current_user ← current_user_dependency authorization;
             routers_blogs.create_blog blog current_user).

Definition PATCH_blog (authorization : option jwt.token) (blog_id : string)
    (blog : BlogUpdate.t) :=
  serve 200 (current_user ← current_user_dependency authorization;
             updated ← routers_blogs.update_blog blog_id blog current_user;
             response_model updated).

Definition DELETE_blog (authorization : option jwt.token) (blog_id : string) :=
  serve 204 (current_user ← current_user_dependency authorization;
             routers_blogs.delete_blog blog_id current_user).

Definition GET_user (user_id : string) :=
  serve 200 (routers_users.get_user user_id).

Definition GET_root := serve 200 health_check.

(** ** Notions the statements use *)

(** The row a point lookup by id finds in a table. *)
Definition row_with (column : string) (v : string) (rows : list dict)
  : option dict :=
  first_or_none (filter (λ r, matches [(column, VStr v)] r) rows).

Definition blog_with_id (blog_id : string) (w : World) : option dict :=
  row_with "id" blog_id (blogs w).

Definition profile_with_id (user_id : string) (w : World) : option dict :=
  row_with "id" user_id (profiles w).

(** The subject a token verifies to under the world's settings and clock. *)
Definition token_subject (token : jwt.token) (w : World) : option string :=
  match jwt.decode token (secret_key (settings w)) [algorithm (settings w)]
          (now w) with
  | Return claims =>
      match claims !! "sub" with
      | Some (VStr s) => Some s
      | _ => None
      end
  | Raise _ => None
  end.

(** Requests that change the store, and calls to the provider. *)
Definition is_mutation (e : Event) : bool :=
  match e with
  | EvStore _ _ (OpInsert _ | OpUpdate _ | OpDelete) _ => true
  | _ => false
  end.

Definition is_provider_call (e : Event) : bool :=
  match e with
  | EvSignUp _ _ | EvSignIn _ _ => true
  | _ => false
  end.

(** The lookups the handlers issue. *)
Definition select_by (db : Client) (table column v : string) : Event :=
  EvStore db table (OpSelect "*") [(column, VStr v)].

(** A partial update applied to the rows with the given id. *)
Definition patched (blog_id : string) (payload : dict) (rows : list dict)
  : list dict :=
  (λ r, if matches [("id", VStr blog_id)] r then payload ∪ r else r) <$> rows.

(** Nothing but reads happened between two worlds. *)
Definition only_reads (w w' : World) : Prop :=
  ∃ evs, w' = add_events evs w ∧
         Forall (λ e, is_mutation e = false ∧ is_provider_call e = false) evs.

(** A listing is newest first when no row stands before a row with a later
    creation timestamp. *)
Definition newest_first (rows : list dict) : Prop :=
  ∀ (i j : nat) (ri rj : dict) (ti tj : Z),
    (i < j)%nat → rows !! i = Some ri → rows !! j = Some rj →
    ri !! "created_at" = Some (VInt ti) →
    rj !! "created_at" = Some (VInt tj) →
    tj ≤ ti.

(** The two refusals of the mutating blog handlers. *)
Definition not_found : Exn := HTTPException 404 "Blog not found" [].
Definition forbidden : Exn :=
  HTTPException 403 "You are not the author of this blog" [].

(** The refusals of [register]. *)
Definition email_taken : Exn :=
  HTTPException 400 "An account with this email already exists" [].
Definition no_user_returned : Exn :=
  HTTPException 500
    "Registration failed — Supabase Auth did not return a user" [].

(** ** A small world to run the handlers on *)
Module demo.

Definition config : Settings :=
  {| secret_key := "server-secret";
     algorithm := default_algorithm;
     access_token_expire_minutes := default_access_token_expire_minutes |}.

Definition profile (id username email : string) (created_at : Z) : dict :=
  {[ "id" := VStr id; "username" := VStr username; "email" := VStr email;
     "created_at" := VInt created_at ]}.

Definition post (id title author_id : string) (published : bool)
    (created_at : Z) : dict :=
  {[ "id" := VStr id; "title" := VStr title;
     "body" := VStr "Lorem ipsum dolor sit amet";
     "published" := VBool published; "author_id" := VStr author_id;
     "created_at" := VInt created_at; "updated_at" := VInt created_at ]}.

(** The provider refuses the password "weak", returns no user for the
    address "void@example.org", and otherwise makes the user "u3". *)
Definition provider (email password : string) : AuthReply :=
  if bool_decide (password = "weak") then ReplyError "Password is too weak"
  else if bool_decide (email = "void@example.org")
  then ReplyResponse {| user := None |}
  else ReplyResponse {| user := Some {| auth_user_id := "u3" |} |}.

Definition world : World :=
  {| settings := config;
     now := 1000;
     blogs := [ post "b1" "First post" "u1" true 10;
                post "b2" "A draft" "u2" false 20;
                post "b3" "Third post" "u1" true 30;
                post "b4" "Another draft" "u1" false 40 ];
     profiles := [ profile "u1" "alice" "alice@example.org" 1;
                   profile "u2" "bob" "bob@example.org" 2 ];
     next_id := 5%N;
     sign_up_reply := provider;
     sign_in_reply := λ _ _, ReplyError "Invalid login credentials";
     trace := [] |}.

Definition alice : UserResponse.t :=
  UserResponse.make "alice" "alice@example.org" (UUID.make "u1") 1.
Definition bob : UserResponse.t :=
  UserResponse.make "bob" "bob@example.org" (UUID.make "u2") 2.

(** A token for a subject as [create_access_token] makes it at time 1000. *)
Definition token_of (subject_id : string) : jwt.token :=
  jwt.encode {[ "sub" := VStr subject_id; "exp" := VInt 4600 ]}
    "server-secret" "HS256".

(** The same world [seconds] later. *)
Definition later (seconds : Z) (w : World) : World :=
  {| settings := settings w; now := now w + seconds; blogs := blogs w;
     profiles := profiles w; next_id := next_id w;
     sign_up_reply := sign_up_reply w; sign_in_reply := sign_in_reply w;
     trace := trace w |}.

Definition hello : BlogCreate.t :=
  BlogCreate.make "Hello world" "Ten characters or more" true.

Definition retitle : BlogUpdate.t :=
  BlogUpdate.make (Some "A new title") None None.
Definition no_change : BlogUpdate.t := BlogUpdate.make None None None.

End demo.

(** ** Further worlds and requests for the runs below *)
Module scenario.

(** A deployment with another signing secret. *)
Definition foreign_world : World :=
  {| settings := {| secret_key := "another-secret";
                    algorithm := default_algorithm;
                    access_token_expire_minutes :=
                      default_access_token_expire_minutes |};
     now := 1000; blogs := []; profiles := []; next_id := 0%N;
     sign_up_reply := demo.provider;
     sign_in_reply := demo.provider;
     trace := [] |}.

(** Bob's requests to create a blog, and what they leave. *)
Definition bob_token : jwt.token := demo.token_of "u2".

Definition hello_row : dict :=
  <["author_id" := VStr "u2"]> (BlogCreate.model_dump demo.hello)
  ∪ column_defaults "blogs" demo.world.

Definition after_hello : World :=
  (POST_blogs (Some bob_token) demo.hello demo.world).2.

Definition draft : BlogCreate.t :=
  BlogCreate.make "Not yet public" "Still being written" false.

Definition draft_row : dict :=
  <["author_id" := VStr "u2"]> (BlogCreate.model_dump draft)
  ∪ column_defaults "blogs" demo.world.

Definition after_draft : World :=
  (POST_blogs (Some bob_token) draft demo.world).2.

End scenario.

(** * Properties *)

(** Closed equations between runs of the model are checked by evaluating
    both sides. *)
Ltac by_computation :=
  lazymatch goal with
  | |- ?x = ?y => vm_cast_no_check (@eq_refl _ y)
  end.

(** ** Worlds and traces *)

Lemma add_events_nil w : add_events [] w = w.
Proof. destruct w; unfold add_events; simpl. by rewrite app_nil_r. Qed.

Lemma add_events_add_events evs1 evs2 w :
  add_events evs2 (add_events evs1 w) = add_events (evs1 ++ evs2) w.
Proof. unfold add_events; simpl. by rewrite app_assoc. Qed.

Lemma matches_singleton column v (r : dict) :
  matches [(column, v)] r = bool_decide (r !! column = Some v).
Proof. unfold matches; simpl. by rewrite andb_true_r. Qed.

Lemma matches_singleton_true column v (r : dict) :
  matches [(column, v)] r ↔ r !! column = Some v.
Proof. rewrite matches_singleton. apply bool_decide_spec. Qed.

Lemma truthy_dict_lookup (d : dict) k v : d !! k = Some v → truthy_dict d = true.
Proof.
  intros Hk. unfold truthy_dict. rewrite bool_decide_false; [done|].
  intros ->. by rewrite lookup_empty in Hk.
Qed.

Lemma row_with_Some column v rows r :
  row_with column v rows = Some r →
  r ∈ rows ∧ r !! column = Some (VStr v) ∧ truthy (Some r) = true.
Proof.
  unfold row_with. intros Hf.
  assert (r ∈ filter (λ r, matches [(column, VStr v)] r) rows) as Hin.
  { destruct (filter _ rows) as [|r0 l]; simplify_eq/=. left. }
  apply list_elem_of_filter in Hin as [Hm Hin].
  apply matches_singleton_true in Hm.
  split_and!; [done..|]. simpl. by eapply truthy_dict_lookup.
Qed.

Lemma row_with_None column v rows :
  row_with column v rows = None ↔
  Forall (λ r, r !! column ≠ Some (VStr v)) rows.
Proof.
  unfold row_with. rewrite Forall_forall. split.
  - intros Hf r Hin Hr.
    assert (r ∈ filter (λ r, matches [(column, VStr v)] r) rows) as Hin'.
    { apply list_elem_of_filter. split; [|done]. by apply matches_singleton_true. }
    destruct (filter _ rows); simplify_eq/=. by apply elem_of_nil in Hin'.
  - intros Hall.
    destruct (filter _ rows) as [|r l] eqn:Hf; [done|].
    assert (r ∈ filter (λ r, matches [(column, VStr v)] r) rows) as Hin
      by (rewrite Hf; left).
    apply list_elem_of_filter in Hin as [Hm Hin].
    apply matches_singleton_true in Hm. by destruct (Hall r Hin).
Qed.

Lemma row_with_exists column v rows r :
  r ∈ rows → r !! column = Some (VStr v) →
  ∃ r0, row_with column v rows = Some r0.
Proof.
  intros Hin Hr. destruct (row_with column v rows) as [r0|] eqn:Hf; [by eexists|].
  apply row_with_None in Hf. rewrite Forall_forall in Hf. by destruct (Hf r Hin).
Qed.

(** ** What each [crud] function does to the world *)

Lemma get_blog_run db blog_id w :
  crud_blog.get_blog db blog_id w =
  (Return (blog_with_id blog_id w),
   add_events [select_by db "blogs" "id" blog_id] w).
Proof. reflexivity. Qed.

Lemma get_user_by_id_run db user_id w :
  crud_user.get_user_by_id db user_id w =
  (Return (profile_with_id user_id w),
   add_events [select_by db "profiles" "id" user_id] w).
Proof. reflexivity. Qed.

Lemma get_user_by_email_run db email w :
  crud_user.get_user_by_email db email w =
  (Return (row_with "email" email (profiles w)),
   add_events [select_by db "profiles" "email" email] w).
Proof. reflexivity. Qed.

(** ** Tokens *)

Lemma jwt_decode_raises tok key algs t e :
  jwt.decode tok key algs t = Raise e → ∃ msg, e = JWTError msg.
Proof.
  unfold jwt.decode. intros H.
  repeat (case_match; simplify_eq/=); eauto.
Qed.

Lemma jwt_decode_sub tok key algs t claims :
  jwt.decode tok key algs t = Return claims →
  claims !! "sub" = None ∨ ∃ s, claims !! "sub" = Some (VStr s).
Proof.
  unfold jwt.decode. intros H.
  repeat (case_match; simplify_eq/=); eauto.
Qed.

(** [decode_access_token] never raises: it returns the verified subject or
    [None]. *)
Lemma decode_access_token_run token w :
  decode_access_token token w =
  (Return (TokenData.make ∘ Some <$> token_subject token w), w).
Proof.
  unfold decode_access_token, token_subject, try_except, jwt_decode.
  unfold mbind, M_bind, get_world; simpl.
  destruct (jwt.decode token _ _ _) as [claims|e] eqn:Hd; simpl.
  - destruct (jwt_decode_sub _ _ _ _ _ Hd) as [->|[s ->]]; reflexivity.
  - destruct (jwt_decode_raises _ _ _ _ _ Hd) as [msg ->]. reflexivity.
Qed.

Lemma create_access_token_run data expires_delta w :
  create_access_token data expires_delta w =
  (Return (jwt.encode
             (<["exp" := VInt (now w + or_timedelta expires_delta
                  (timedelta_minutes (access_token_expire_minutes (settings w))))]>
                data)
             (secret_key (settings w)) (algorithm (settings w))),
   w).
Proof. reflexivity. Qed.

(** A token made for a subject verifies to it as long as the clock has not
    passed its expiry. *)
Lemma token_subject_issued (w w' : World) (subject_id : string) expires_delta :
  settings w' = settings w →
  now w' ≤ now w + or_timedelta expires_delta
             (timedelta_minutes (access_token_expire_minutes (settings w))) →
  ∃ token,
    create_access_token {[ "sub" := VStr subject_id ]} expires_delta w
      = (Return token, w) ∧
    token_subject token w' = Some subject_id.
Proof.
  intros Hs Hnow. eexists. split; [apply create_access_token_run|].
  unfold token_subject, jwt.encode, jwt.decode. rewrite Hs.
  rewrite bool_decide_true by set_solver. simpl.
  rewrite bool_decide_true by done. simpl.
  rewrite lookup_insert_eq.
  rewrite bool_decide_false by lia.
  rewrite lookup_insert_ne by done. by rewrite lookup_singleton_eq.
Qed.

(** ** Identity resolution *)

Lemma bind_run {A B} (m : M A) (f : A → M B) w :
  (m ≫= f) w =
  match m w with
  | (Return a, w') => f a w'
  | (Raise e, w') => (Raise e, w')
  end.
Proof. reflexivity. Qed.

Lemma get_current_user_run token w :
  get_current_user token w =
  match token_subject token w with
  | None => (Raise credentials_exception, w)
  | Some sub =>
      (match profile_with_id sub w with
       | None => Raise credentials_exception
       | Some user => UserResponse.validate user
       end,
       add_events [select_by supabase "profiles" "id" sub] w)
  end.
Proof.
  unfold get_current_user. rewrite bind_run, decode_access_token_run.
  destruct (token_subject token w) as [sub|]; simpl; [|done].
  rewrite bind_run, get_user_by_id_run.
  destruct (profile_with_id sub w) as [user|]; [|done].
  by destruct (UserResponse.validate user).
Qed.

(** Resolving the identity only reads: the world it leaves differs from
    the one it found by at most one lookup in the trace. *)
Lemma current_user_dependency_world authorization w r w1 :
  current_user_dependency authorization w = (r, w1) →
  w1 = w ∨ ∃ sub, w1 = add_events [select_by supabase "profiles" "id" sub] w.
Proof.
  unfold current_user_dependency. rewrite bind_run.
  destruct authorization as [token|]; simpl.
  - rewrite get_current_user_run.
    destruct (token_subject token w); intros [= <- <-]; eauto.
  - intros [= <- <-]. by left.
Qed.

Lemma current_user_dependency_blogs authorization w r w1 :
  current_user_dependency authorization w = (r, w1) → blogs w1 = blogs w.
Proof.
  intros H. by destruct (current_user_dependency_world _ _ _ _ H) as [->|[? ->]].
Qed.

Lemma validate_raises user e :
  UserResponse.validate user = Raise e → ∃ msg, e = ValidationError msg.
Proof.
  unfold UserResponse.validate. intros H.
  repeat (case_match; simplify_eq/=); eauto.
Qed.

(** The only refusals of the dependency are 401s; a stored profile that
    does not fit the response schema surfaces as a validation error. *)
Lemma current_user_dependency_raises authorization w e w1 :
  current_user_dependency authorization w = (Raise e, w1) →
  (∃ detail headers, e = HTTPException 401 detail headers) ∨
  (∃ msg, e = ValidationError msg).
Proof.
  unfold current_user_dependency. rewrite bind_run.
  destruct authorization as [token|]; simpl.
  - rewrite get_current_user_run. unfold credentials_exception.
    destruct (token_subject token w) as [sub|]; [|intros [= <- <-]; eauto].
    destruct (profile_with_id sub w) as [user|]; [|intros [= <- <-]; eauto].
    intros [= Hv <-]. right. by eapply validate_raises.
  - intros [= <- <-]. eauto.
Qed.

(** ** Blog rows: lookup, insert, update, delete *)

Lemma lookup_dump_field_eq key v (d : dict) :
  BlogUpdate.dump_field key v d !! key =
  match v with Some x => Some x | None => d !! key end.
Proof. destruct v; simpl; [apply lookup_insert_eq|done]. Qed.

Lemma lookup_dump_field_ne key k v (d : dict) :
  key ≠ k → BlogUpdate.dump_field key v d !! k = d !! k.
Proof. intros. destruct v; simpl; [by apply lookup_insert_ne|done]. Qed.

Lemma model_dump_exclude_none_title blog :
  BlogUpdate.model_dump_exclude_none blog !! "title"
  = VStr <$> BlogUpdate.title blog.
Proof.
  unfold BlogUpdate.model_dump_exclude_none.
  rewrite lookup_dump_field_eq. destruct (BlogUpdate.title blog); [done|].
  by rewrite !lookup_dump_field_ne.
Qed.

Lemma model_dump_exclude_none_body blog :
  BlogUpdate.model_dump_exclude_none blog !! "body"
  = VStr <$> BlogUpdate.body blog.
Proof.
  unfold BlogUpdate.model_dump_exclude_none.
  rewrite lookup_dump_field_ne by done.
  rewrite lookup_dump_field_eq. destruct (BlogUpdate.body blog); [done|].
  by rewrite !lookup_dump_field_ne.
Qed.

Lemma model_dump_exclude_none_published blog :
  BlogUpdate.model_dump_exclude_none blog !! "published"
  = VBool <$> BlogUpdate.published blog.
Proof.
  unfold BlogUpdate.model_dump_exclude_none.
  rewrite !lookup_dump_field_ne by done.
  rewrite lookup_dump_field_eq. by destruct (BlogUpdate.published blog).
Qed.

Lemma model_dump_exclude_none_other blog k :
  k ≠ "title" → k ≠ "body" → k ≠ "published" →
  BlogUpdate.model_dump_exclude_none blog !! k = None.
Proof.
  intros. unfold BlogUpdate.model_dump_exclude_none.
  by rewrite !lookup_dump_field_ne.
Qed.

Lemma model_dump_exclude_none_empty blog :
  BlogUpdate.model_dump_exclude_none blog = ∅ ↔
  BlogUpdate.title blog = None ∧ BlogUpdate.body blog = None ∧
  BlogUpdate.published blog = None.
Proof.
  split.
  - intros He.
    pose proof (model_dump_exclude_none_title blog) as Ht.
    pose proof (model_dump_exclude_none_body blog) as Hb.
    pose proof (model_dump_exclude_none_published blog) as Hp.
    rewrite He, lookup_empty in Ht, Hb, Hp.
    by destruct (BlogUpdate.title blog), (BlogUpdate.body blog),
      (BlogUpdate.published blog).
  - intros (Ht & Hb & Hp). unfold BlogUpdate.model_dump_exclude_none.
    by rewrite Ht, Hb, Hp.
Qed.

Lemma patched_empty blog_id rows : patched blog_id ∅ rows = rows.
Proof.
  unfold patched. induction rows as [|r rows IH]; [done|].
  rewrite fmap_cons, IH. f_equal.
  destruct (matches _ r); [apply (left_id_L ∅ (∪))|done].
Qed.

Lemma update_blog_run db blog_id blog w :
  crud_blog.update_blog db blog_id blog w =
  let payload := BlogUpdate.model_dump_exclude_none blog in
  if bool_decide (payload = ∅) then
    (Return (blog_with_id blog_id w),
     add_events [select_by db "blogs" "id" blog_id] w)
  else
    (Return ((payload ∪.) <$> blog_with_id blog_id w),
     set_table_rows "blogs" (patched blog_id payload (blogs w)) (next_id w)
       (add_events [EvStore db "blogs" (OpUpdate payload)
                      [("id", VStr blog_id)]] w)).
Proof.
  unfold crud_blog.update_blog, truthy_dict. simpl.
  case_bool_decide; [reflexivity|].
  unfold execute, mbind, M_bind, log, get_world, blog_with_id, row_with.
  simpl. by destruct (filter _ (blogs w)).
Qed.

Lemma delete_blog_run db blog_id w :
  crud_blog.delete_blog db blog_id w =
  (Return (0 <?
     length (filter (λ r, matches [("id", VStr blog_id)] r) (blogs w)))%nat,
   set_table_rows "blogs"
     (filter (λ r, ¬ matches [("id", VStr blog_id)] r) (blogs w)) (next_id w)
     (add_events [EvStore db "blogs" OpDelete [("id", VStr blog_id)]] w)).
Proof. reflexivity. Qed.

Lemma create_blog_run db blog author_id w :
  crud_blog.create_blog db blog author_id w =
  let payload := <["author_id" := VStr author_id]> (BlogCreate.model_dump blog) in
  let r := payload ∪ column_defaults "blogs" w in
  (Return r,
   set_table_rows "blogs" (blogs w ++ [r]) (N.succ (next_id w))
     (add_events [EvStore db "blogs" (OpInsert payload) []] w)).
Proof. reflexivity. Qed.

(** ** The ownership gate *)

Lemma only_reads_refl w : only_reads w w.
Proof. exists []. by rewrite add_events_nil. Qed.

Lemma only_reads_trans w1 w2 w3 :
  only_reads w1 w2 → only_reads w2 w3 → only_reads w1 w3.
Proof.
  intros (evs1 & -> & H1) (evs2 & -> & H2). exists (evs1 ++ evs2)%list.
  rewrite add_events_add_events. split; [done|]. by apply Forall_app.
Qed.

Lemma only_reads_select db t column v w :
  only_reads w (add_events [select_by db t column v] w).
Proof. eexists. split; [done|]. by repeat constructor. Qed.

Lemma only_reads_store w w' :
  only_reads w w' →
  blogs w' = blogs w ∧ profiles w' = profiles w ∧ now w' = now w ∧
  settings w' = settings w.
Proof. by intros (evs & -> & _). Qed.

Lemma current_user_dependency_only_reads authorization w r w1 :
  current_user_dependency authorization w = (r, w1) → only_reads w w1.
Proof.
  intros H. destruct (current_user_dependency_world _ _ _ _ H) as [->|[? ->]].
  - apply only_reads_refl.
  - apply only_reads_select.
Qed.

Lemma serve_authenticated {A} code authorization (h : UserResponse.t → M A)
    w current_user w1 :
  current_user_dependency authorization w = (Return current_user, w1) →
  serve code (current_user_dependency authorization ≫= h) w
  = serve code (h current_user) w1.
Proof. intros H. unfold serve. by rewrite bind_run, H. Qed.

Lemma serve_unauthenticated {A} code authorization (h : UserResponse.t → M A)
    w e w1 :
  current_user_dependency authorization w = (Raise e, w1) →
  serve code (current_user_dependency authorization ≫= h) w
  = serve code (raise e) w1.
Proof. intros H. unfold serve. by rewrite bind_run, H. Qed.

(** Both mutating handlers open with the same lookup and comparison. *)
Lemma update_blog_gate blog_id blog current_user w :
  routers_blogs.update_blog blog_id blog current_user w =
  let w1 := add_events [select_by supabase "blogs" "id" blog_id] w in
  match blog_with_id blog_id w with
  | None => (Raise not_found, w1)
  | Some row =>
      match row !! "author_id" with
      | None => (Raise (KeyError "author_id"), w1)
      | Some a =>
          if bool_decide (str a = UUID.str (UserResponse.id current_user))
          then crud_blog.update_blog supabase blog_id blog w1
          else (Raise forbidden, w1)
      end
  end.
Proof.
  unfold routers_blogs.update_blog. rewrite bind_run, get_blog_run. simpl.
  destruct (blog_with_id blog_id w) as [row|] eqn:Hrow; [|done].
  apply row_with_Some in Hrow as (_ & _ & Ht).
  rewrite bind_run. unfold raise_if_not. rewrite Ht.
  unfold mret, M_ret. rewrite bind_run. unfold getitem.
  destruct (row !! "author_id") as [a|]; [|done].
  unfold mret, M_ret. case_bool_decide; simpl; [|done].
  rewrite bind_run. by destruct (crud_blog.update_blog _ _ _ _) as [[]].
Qed.

Lemma delete_blog_gate blog_id current_user w :
  routers_blogs.delete_blog blog_id current_user w =
  let w1 := add_events [select_by supabase "blogs" "id" blog_id] w in
  match blog_with_id blog_id w with
  | None => (Raise not_found, w1)
  | Some row =>
      match row !! "author_id" with
      | None => (Raise (KeyError "author_id"), w1)
      | Some a =>
          if bool_decide (str a = UUID.str (UserResponse.id current_user))
          then (Return (),
                (crud_blog.delete_blog supabase blog_id w1).2)
          else (Raise forbidden, w1)
      end
  end.
Proof.
  unfold routers_blogs.delete_blog. rewrite bind_run, get_blog_run. simpl.
  destruct (blog_with_id blog_id w) as [row|] eqn:Hrow; [|done].
  apply row_with_Some in Hrow as (_ & _ & Ht).
  rewrite bind_run. unfold raise_if_not. rewrite Ht.
  unfold mret, M_ret. rewrite bind_run. unfold getitem.
  destruct (row !! "author_id") as [a|]; [|done].
  unfold mret, M_ret. case_bool_decide; simpl; [|done].
  by rewrite bind_run, delete_blog_run.
Qed.

Lemma blog_with_id_only_reads blog_id w w' :
  only_reads w w' → blog_with_id blog_id w' = blog_with_id blog_id w.
Proof. intros (evs & -> & _). reflexivity. Qed.

Lemma patch_owner blog_id blog current_user row w :
  blog_with_id blog_id w = Some row →
  row !! "author_id"
    = Some (VStr (UUID.str (UserResponse.id current_user))) →
  ∃ w', serve 200 (routers_blogs.update_blog blog_id blog current_user
                     ≫= response_model) w
        = (Success 200 (BlogUpdate.model_dump_exclude_none blog ∪ row), w') ∧
        blogs w' = patched blog_id (BlogUpdate.model_dump_exclude_none blog)
                     (blogs w) ∧
        profiles w' = profiles w ∧
        trace w' = (trace w ++
          [select_by supabase "blogs" "id" blog_id;
           if bool_decide (BlogUpdate.model_dump_exclude_none blog = ∅)
           then select_by supabase "blogs" "id" blog_id
           else EvStore supabase "blogs"
                  (OpUpdate (BlogUpdate.model_dump_exclude_none blog))
                  [("id", VStr blog_id)]])%list.
Proof.
  intros Hrow Hauthor. unfold serve.
  rewrite bind_run, update_blog_gate, Hrow, Hauthor. simpl.
  rewrite bool_decide_true by done. rewrite update_blog_run. simpl.
  case_bool_decide as Hp.
  - rewrite Hp. unfold blog_with_id in *. simpl. rewrite Hrow. simpl.
    eexists. split; [by rewrite (left_id_L ∅ (∪))|]. simpl.
    rewrite patched_empty. split_and!; [done..|]. by rewrite <- app_assoc.
  - simpl. unfold blog_with_id in Hrow. unfold blog_with_id. simpl.
    rewrite Hrow. simpl.
    eexists. split; [done|]. simpl. split_and!; [done..|].
    by rewrite <- app_assoc.
Qed.





Lemma mutation_not_found blog_id current_user w :
  blog_with_id blog_id w = None →
  let w' := add_events [select_by supabase "blogs" "id" blog_id] w in
  (∀ blog, serve 200 (routers_blogs.update_blog blog_id blog current_user
                        ≫= response_model) w
           = (Failure 404 "Blog not found" [], w')) ∧
  serve 204 (routers_blogs.delete_blog blog_id current_user) w
  = (Failure 404 "Blog not found" [], w').
Proof.
  intros Hrow. unfold serve. split; [intros blog|].
  - by rewrite bind_run, update_blog_gate, Hrow.
  - by rewrite delete_blog_gate, Hrow.
Qed.

Lemma serve_refused {A} code (e : Exn) w :
  ((∃ detail headers, e = HTTPException 401 detail headers) ∨
   (∃ msg, e = ValidationError msg)) →
  status (serve (A:=A) code (raise e) w).1 = 401 ∨
  status (serve (A:=A) code (raise e) w).1 = 500.
Proof. intros [(d & h & ->)|(msg & ->)]; simpl; auto. Qed.

(** C2.  A PATCH or DELETE naming an id that no blog has is answered 404,
    whoever the authenticated requester is, and only lookups are issued;
    whatever the credentials, the answer is never 403. *)
Theorem C2_missing_blog_is_not_found
    authorization blog_id blog (w : World) :
  Forall (λ r : dict, r !! "id" ≠ Some (VStr blog_id)) (blogs w) →
  (∀ current_user w1,
     current_user_dependency authorization w = (Return current_user, w1) →
     ∃ w', only_reads w w' ∧
       PATCH_blog authorization blog_id blog w
         = (Failure 404 "Blog not found" [], w') ∧
       DELETE_blog authorization blog_id w
         = (Failure 404 "Blog not found" [], w')) ∧
  status (PATCH_blog authorization blog_id blog w).1 ≠ 403 ∧
  status (DELETE_blog authorization blog_id w).1 ≠ 403.
Proof.
  intros Hnone. apply row_with_None in Hnone.
  assert (∀ current_user w1,
    current_user_dependency authorization w = (Return current_user, w1) →
    ∃ w', only_reads w w' ∧
      PATCH_blog authorization blog_id blog w
        = (Failure 404 "Blog not found" [], w') ∧
      DELETE_blog authorization blog_id w
        = (Failure 404 "Blog not found" [], w')) as Hfound.
  { intros current_user w1 Hauth.
    pose proof (current_user_dependency_only_reads _ _ _ _ Hauth) as Hreads.
    pose proof (blog_with_id_only_reads blog_id _ _ Hreads) as Hsame.
    unfold blog_with_id in Hsame at 2. rewrite Hnone in Hsame.
    destruct (mutation_not_found _ current_user _ Hsame) as [Hp Hd].
    unfold PATCH_blog, DELETE_blog.
    rewrite !(serve_authenticated _ _ _ _ _ _ Hauth).
    eexists. split_and!; [|exact (Hp blog)|exact Hd].
    eapply only_reads_trans; [done|apply only_reads_select]. }
  split; [done|].
  destruct (current_user_dependency authorization w) as [[u|e] w1] eqn:Hauth.
  - destruct (Hfound u w1 eq_refl) as (w' & _ & -> & ->). done.
  - pose proof (current_user_dependency_raises _ _ _ _ Hauth) as He.
    unfold PATCH_blog, DELETE_blog.
    rewrite !(serve_unauthenticated _ _ _ _ _ _ Hauth).
    split.
    + destruct (serve_refused (A:=dict) 200 e w1 He) as [-> | ->]; done.
    + destruct (serve_refused (A:=()) 204 e w1 He) as [-> | ->]; done.
Qed.

Lemma C2_missing_blog_is_not_found_witness :
  (∃ w', only_reads demo.world w' ∧
     PATCH_blog (Some (demo.token_of "u2")) "b9" demo.retitle demo.world
       = (Failure 404 "Blog not found" [], w') ∧
     DELETE_blog (Some (demo.token_of "u2")) "b9" demo.world
       = (Failure 404 "Blog not found" [], w')) ∧
  status (PATCH_blog None "b9" demo.retitle demo.world).1 ≠ 403.
Proof.
  split.
  - refine (proj1 (C2_missing_blog_is_not_found
                     (Some (demo.token_of "u2")) "b9" demo.retitle demo.world _)
              demo.bob
              (add_events [select_by supabase "profiles" "id" "u2"] demo.world)
              _).
    + repeat constructor; discriminate.
    + by_computation.
  - refine (proj1 (proj2 (C2_missing_blog_is_not_found
                            None "b9" demo.retitle demo.world _))).
    repeat constructor; discriminate.
Defined.

(** ** Creation *)

Lemma model_dump_fields blog :
  dom (BlogCreate.model_dump blog) = {[ "title"; "body"; "published" ]}.
Proof.
  unfold BlogCreate.model_dump.
  rewrite !dom_insert_L, dom_singleton_L. set_solver.
Qed.

Lemma create_blog_served blog current_user w :
  let author := UUID.str (UserResponse.id current_user) in
  let payload := <["author_id" := VStr author]> (BlogCreate.model_dump blog) in
  ∃ row w',
    serve 201 (routers_blogs.create_blog blog current_user) w
      = (Success 201 row, w') ∧
    row !! "author_id" = Some (VStr author) ∧
    row !! "title" = Some (VStr (BlogCreate.title blog)) ∧
    row !! "body" = Some (VStr (BlogCreate.body blog)) ∧
    row !! "published" = Some (VBool (BlogCreate.published blog)) ∧
    blogs w' = (blogs w ++ [row])%list ∧
    trace w' = (trace w ++ [EvStore supabase "blogs" (OpInsert payload) []])%list.
Proof.
  intros author payload. unfold serve, routers_blogs.create_blog.
  rewrite create_blog_run. simpl. eexists _, _. split; [done|].
  unfold BlogCreate.model_dump. simpl.
  split_and!; try done; apply lookup_union_Some_l; by simplify_map_eq.
Qed.

(** C3.  Whenever POST /blogs/ succeeds, the request was authenticated and
    the row created carries the resolved identity as [author_id]; the
    request schema has the fields title, body and published only, and the
    author in the insert payload is set from that identity. *)
Theorem C3_author_is_the_resolved_identity
    authorization blog (w w' : World) code row :
  POST_blogs authorization blog w = (Success code row, w') →
  ∃ current_user w1,
    current_user_dependency authorization w = (Return current_user, w1) ∧
    code = 201 ∧
    row !! "author_id"
      = Some (VStr (UUID.str (UserResponse.id current_user))) ∧
    row !! "title" = Some (VStr (BlogCreate.title blog)) ∧
    row !! "body" = Some (VStr (BlogCreate.body blog)) ∧
    row !! "published" = Some (VBool (BlogCreate.published blog)) ∧
    dom (BlogCreate.model_dump blog) = {[ "title"; "body"; "published" ]} ∧
    blogs w' = (blogs w ++ [row])%list ∧
    trace w' = (trace w1 ++
      [EvStore supabase "blogs"
         (OpInsert (<["author_id" :=
                        VStr (UUID.str (UserResponse.id current_user))]>
                      (BlogCreate.model_dump blog))) []])%list.
Proof.
  unfold POST_blogs. intros Hrun.
  destruct (current_user_dependency authorization w) as [[u|e] w1] eqn:Hauth.
  - rewrite (serve_authenticated _ _ _ _ _ _ Hauth) in Hrun.
    destruct (create_blog_served blog u w1)
      as (row0 & w0 & Hserved & Ha & Ht & Hb & Hp & Hblogs & Htrace).
    rewrite Hserved in Hrun. injection Hrun as <- <- <-.
    exists u, w1.
    split_and!; try done; first [apply model_dump_fields|idtac].
    by rewrite Hblogs, (current_user_dependency_blogs _ _ _ _ Hauth).
  - rewrite (serve_unauthenticated _ _ _ _ _ _ Hauth) in Hrun.
    unfold serve, raise in Hrun. by destruct e.
Qed.

Lemma C3_author_is_the_resolved_identity_witness :
  let row := <["author_id" := VStr "u2"]> (BlogCreate.model_dump demo.hello)
             ∪ column_defaults "blogs" demo.world in
  ∃ current_user w1,
    current_user_dependency (Some (demo.token_of "u2")) demo.world
      = (Return current_user, w1) ∧
    201 = 201 ∧
    row !! "author_id"
      = Some (VStr (UUID.str (UserResponse.id current_user))) ∧
    row !! "title" = Some (VStr "Hello world").
Proof.
  intros row.
  destruct (C3_author_is_the_resolved_identity
              (Some (demo.token_of "u2")) demo.hello demo.world
              (POST_blogs (Some (demo.token_of "u2")) demo.hello demo.world).2
              201 row)
    as (u & w1 & Hauth & Hcode & Hrow & Htitle & _).
  - by_computation.
  - exists u, w1. split_and!; assumption.
Defined.

(** ** Refusals of the identity resolver *)

Lemma token_subject_decoded token w sub :
  (decode_access_token token w).1 = Return sub →
  sub = TokenData.make ∘ Some <$> token_subject token w.
Proof. rewrite decode_access_token_run. simpl. congruence. Qed.

Lemma validate_returns user u :
  UserResponse.validate user = Return u →
  user !! "username" = Some (VStr (UserResponse.username u)) ∧
  user !! "email" = Some (VStr (UserResponse.email u)) ∧
  user !! "id" = Some (VStr (UUID.str (UserResponse.id u))) ∧
  user !! "created_at" = Some (VInt (UserResponse.created_at u)).
Proof.
  unfold UserResponse.validate. intros H.
  repeat (case_match; simplify_eq/=); done.
Qed.

(** C4.  [get_current_user] raises one and the same exception, 401 with
    detail "Could not validate credentials" and the header
    WWW-Authenticate: Bearer, when the token does not verify and when it
    verifies to a subject without a profile row, so that the response to
    the caller is the same in both cases; when it returns, it returns the
    username, email, id and creation time of the subject's profile row. *)
Theorem C4_one_refusal_for_both_failures (token : jwt.token) (w : World) :
  ((decode_access_token token w).1 = Return None ∨
   (∃ sub,
      (decode_access_token token w).1
        = Return (Some (TokenData.make (Some sub))) ∧
      Forall (λ p : dict, p !! "id" ≠ Some (VStr sub)) (profiles w)) →
   (get_current_user token w).1
     = Raise (HTTPException 401 "Could not validate credentials"
                [("WWW-Authenticate", "Bearer")]) ∧
   (GET_auth_me (Some token) w).1
     = Failure 401 "Could not validate credentials"
         [("WWW-Authenticate", "Bearer")]) ∧
  (∀ u, (get_current_user token w).1 = Return u →
     ∃ sub row,
       (decode_access_token token w).1
         = Return (Some (TokenData.make (Some sub))) ∧
       profile_with_id sub w = Some row ∧
       row ∈ profiles w ∧
       UserResponse.id u = UUID.make sub ∧
       row !! "id" = Some (VStr sub) ∧
       row !! "username" = Some (VStr (UserResponse.username u)) ∧
       row !! "email" = Some (VStr (UserResponse.email u)) ∧
       row !! "created_at" = Some (VInt (UserResponse.created_at u))).
Proof.
  split.
  - intros Hfail.
    assert ((get_current_user token w).1 = Raise credentials_exception) as Hr.
    { rewrite get_current_user_run.
      destruct Hfail as [Hd|(sub & Hd & Hnone)];
        apply token_subject_decoded in Hd;
        destruct (token_subject token w) as [s|]; simplify_eq/=; [done|].
      apply row_with_None in Hnone. unfold profile_with_id. by rewrite Hnone. }
    split; [exact Hr|].
    unfold GET_auth_me, current_user_dependency, serve. rewrite !bind_run. simpl.
    destruct (get_current_user token w) as [r w1]. simpl in Hr. by subst r.
  - intros u Hu. rewrite get_current_user_run in Hu.
    rewrite decode_access_token_run. simpl.
    destruct (token_subject token w) as [sub|]; [|done]. simpl in Hu.
    destruct (profile_with_id sub w) as [row|] eqn:Hrow; [|done].
    apply validate_returns in Hu as (Hn & He & Hi & Hc).
    apply row_with_Some in Hrow as Hfacts. destruct Hfacts as (Hin & Hid & _).
    exists sub, row. split_and!; try done.
    rewrite Hid in Hi. destruct (UserResponse.id u). simpl in *. congruence.
Qed.

Lemma C4_one_refusal_for_both_failures_witness :
  (GET_auth_me (Some (demo.token_of "u1")) (demo.later 3601 demo.world)).1
    = Failure 401 "Could not validate credentials"
        [("WWW-Authenticate", "Bearer")] ∧
  (GET_auth_me (Some (demo.token_of "u9")) demo.world).1
    = Failure 401 "Could not validate credentials"
        [("WWW-Authenticate", "Bearer")].
Proof.
  split.
  - refine (proj2 (proj1 (C4_one_refusal_for_both_failures
                            (demo.token_of "u1") (demo.later 3601 demo.world))
                     (or_introl _))).
    by_computation.
  - refine (proj2 (proj1 (C4_one_refusal_for_both_failures
                            (demo.token_of "u9") demo.world)
                     (or_intror (ex_intro _ "u9" (conj _ _))))).
    + by_computation.
    + repeat constructor; discriminate.
Defined.

(** ** Issuing and verifying tokens *)

(** C5.  A token issued for a subject with the default expiry of 60
    minutes decodes, under the same settings and at any time before that
    expiry, to [TokenData] carrying the subject. *)
Theorem C5_token_round_trip (w w' : World) (subject_id : string) :
  access_token_expire_minutes (settings w)
    = default_access_token_expire_minutes →
  settings w' = settings w →
  now w' < now w + timedelta_minutes 60 →
  ∃ token,
    create_access_token {[ "sub" := VStr subject_id ]} None w
      = (Return token, w) ∧
    decode_access_token token w'
      = (Return (Some (TokenData.make (Some subject_id))), w').
Proof.
  intros Hmin Hs Hnow.
  destruct (token_subject_issued w w' subject_id None Hs) as (token & Hc & Hd).
  { simpl. rewrite Hmin. unfold default_access_token_expire_minutes. lia. }
  exists token. split; [done|].
  by rewrite decode_access_token_run, Hd.
Qed.

Lemma C5_token_round_trip_witness :
  ∃ token,
    create_access_token {[ "sub" := VStr "u1" ]} None demo.world
      = (Return token, demo.world) ∧
    decode_access_token token (demo.later 3599 demo.world)
      = (Return (Some (TokenData.make (Some "u1"))),
         demo.later 3599 demo.world).
Proof.
  apply (C5_token_round_trip demo.world (demo.later 3599 demo.world) "u1").
  - reflexivity.
  - reflexivity.
  - vm_compute. reflexivity.
Defined.

(** What [decode_access_token] answers with [None]. *)
Lemma decode_malformed text w :
  decode_access_token (jwt.Malformed text) w = (Return None, w).
Proof. by rewrite decode_access_token_run. Qed.

Lemma decode_bad_signature alg claims sig w :
  sig ≠ jwt.MAC (secret_key (settings w)) alg claims →
  decode_access_token (jwt.JWS alg claims sig) w = (Return None, w).
Proof.
  intros Hsig. rewrite decode_access_token_run.
  unfold token_subject, jwt.decode.
  destruct (negb (bool_decide (alg ∈ _))); [done|].
  by rewrite bool_decide_false.
Qed.

Lemma decode_expired alg claims sig exp w :
  claims !! "exp" = Some (VInt exp) → exp < now w →
  decode_access_token (jwt.JWS alg claims sig) w = (Return None, w).
Proof.
  intros Hexp Hlt. rewrite decode_access_token_run.
  unfold token_subject, jwt.decode. rewrite Hexp.
  repeat (destruct (negb _); [done|]).
  by rewrite bool_decide_true.
Qed.

Lemma decode_no_subject alg claims sig w :
  claims !! "sub" = None →
  decode_access_token (jwt.JWS alg claims sig) w = (Return None, w).
Proof.
  intros Hsub. rewrite decode_access_token_run.
  unfold token_subject, jwt.decode. rewrite Hsub.
  repeat case_match; simplify_eq/=; try done.
  all: by rewrite Hsub.
Qed.

(** Handed [timedelta(0)], [create_access_token] does what it does when
    handed no duration. *)
Lemma or_timedelta_zero default : or_timedelta (Some 0) default = default.
Proof. reflexivity. Qed.

Lemma create_access_token_zero data w :
  create_access_token data (Some (timedelta_minutes 0)) w
  = create_access_token data None w.
Proof. reflexivity. Qed.

(** C6, at the input where the code departs from it.  A token issued with
    an expiry duration of zero gets the default expiry of 60 minutes, and a
    second later it still decodes to its subject. *)
Theorem C6_zero_expiry_token_still_decodes :
  ∃ token,
    create_access_token {[ "sub" := VStr "u1" ]} (Some (timedelta_minutes 0))
      demo.world = (Return token, demo.world) ∧
    token = jwt.encode {[ "sub" := VStr "u1";
                          "exp" := VInt (now demo.world + 3600) ]}
              "server-secret" "HS256" ∧
    decode_access_token token (demo.later 1 demo.world)
      = (Return (Some (TokenData.make (Some "u1"))), demo.later 1 demo.world).
Proof.
  eexists. split; [apply create_access_token_run|]. split; by_computation.
Qed.

(** ** Registration *)

(** The four ways a registration ends. *)
Lemma register_run user_data w :
  let email := UserCreate.email user_data in
  let password := UserCreate.password user_data in
  let w1 := add_events [select_by supabase_admin "profiles" "email" email] w in
  let w2 := add_events [EvSignUp email password] w1 in
  match row_with "email" email (profiles w) with
  | Some _ => routers_auth.register user_data w = (Raise email_taken, w1)
  | None =>
      match sign_up_reply w email password with
      | ReplyError msg =>
          routers_auth.register user_data w
          = (Raise (HTTPException 400 msg []), w2)
      | ReplyResponse {| user := None |} =>
          routers_auth.register user_data w = (Raise no_user_returned, w2)
      | ReplyResponse {| user := Some auth_user |} =>
          ∃ token w3,
            routers_auth.register user_data w
            = (Return (Token.make token "bearer"), w3) ∧
            create_access_token {[ "sub" := VStr (auth_user_id auth_user) ]}
              None w3 = (Return token, w3) ∧
            ∃ row,
              profiles w3 = (profiles w ++ [row])%list ∧
              row !! "id" = Some (VStr (auth_user_id auth_user)) ∧
              row !! "email" = Some (VStr email)
      end
  end.
Proof.
  intros email password w1 w2.
  unfold routers_auth.register. rewrite bind_run, get_user_by_email_run.
  fold email password w1.
  destruct (row_with "email" email (profiles w)) as [row|] eqn:Hrow.
  - apply row_with_Some in Hrow as (_ & _ & ->). done.
  - simpl. rewrite bind_run. unfold try_except, auth_sign_up.
    rewrite bind_run. simpl. rewrite bind_run. simpl. fold w2.
    destruct (sign_up_reply w email password) as [msg|[[auth_user|]]];
      simpl; [done| |done].
    rewrite bind_run. unfold crud_user.create_user_profile.
    rewrite bind_run. simpl. rewrite bind_run, create_access_token_run.
    eexists _, _. split; [done|]. split; [apply create_access_token_run|].
    eexists. split; [done|]. fold email.
    split; apply lookup_union_Some_l; by simplify_map_eq.
Qed.

(** C7.  Registering an address that already has a profile row is refused
    with 400 "An account with this email already exists"; the one request
    issued is the lookup by email, so the provider's sign-up is not
    called and nothing is written. *)
Theorem C7_email_taken_before_provider user_data (w : World) (row : dict) :
  row ∈ profiles w →
  row !! "email" = Some (VStr (UserCreate.email user_data)) →
  ∃ w',
    POST_auth_register user_data w
      = (Failure 400 "An account with this email already exists" [], w') ∧
    trace w' = (trace w ++
      [select_by supabase_admin "profiles" "email"
         (UserCreate.email user_data)])%list ∧
    filter is_provider_call (trace w') = filter is_provider_call (trace w) ∧
    only_reads w w'.
Proof.
  intros Hin Hemail.
  destruct (row_with_exists _ _ _ _ Hin Hemail) as [r0 Hr0].
  pose proof (register_run user_data w) as Hrun. simpl in Hrun.
  rewrite Hr0 in Hrun.
  eexists. unfold POST_auth_register, serve. rewrite Hrun. simpl.
  split_and!; [done|done| |apply only_reads_select].
  unfold add_events. cbn [trace]. rewrite filter_app.
  apply app_nil_r.
Qed.

Lemma C7_email_taken_before_provider_witness :
  ∃ w',
    POST_auth_register
      (UserCreate.make "alice2" "alice@example.org" "correct horse")
      demo.world
      = (Failure 400 "An account with this email already exists" [], w') ∧
    trace w' = (trace demo.world ++
      [select_by supabase_admin "profiles" "email" "alice@example.org"])%list ∧
    filter is_provider_call (trace w')
      = filter is_provider_call (trace demo.world) ∧
    only_reads demo.world w'.
Proof.
  apply (C7_email_taken_before_provider
           (UserCreate.make "alice2" "alice@example.org" "correct horse")
           demo.world
           (demo.profile "u1" "alice" "alice@example.org" 1)).
  - left.
  - by_computation.
Defined.



(** ** Listings *)

#[local] Instance key_le_total : Total key_le.
Proof. intros [x|] [y|]; simpl; auto. lia. Qed.

#[local] Instance key_le_trans : Transitive key_le.
Proof. intros [x|] [y|] [z|]; simpl; try done. lia. Qed.

#[local] Instance row_before_total column desc : Total (row_before column desc).
Proof. intros r1 r2. unfold row_before. destruct desc; apply total, _. Qed.

#[local] Instance row_before_trans column desc :
  Transitive (row_before column desc).
Proof.
  intros r1 r2 r3. unfold row_before.
  destruct desc; intros H1 H2; by etrans.
Qed.

Lemma StronglySorted_lookup {A} (R : relation A) l i j x y :
  StronglySorted R l → (i < j)%nat → l !! i = Some x → l !! j = Some y → R x y.
Proof.
  intros Hl. revert i j. induction Hl as [|a l Hl IH Hall]; intros i j Hij Hi Hj.
  - done.
  - destruct j as [|j]; [lia|]. destruct i as [|i]; simplify_eq/=.
    + rewrite Forall_lookup in Hall. by eapply Hall.
    + eapply (IH i j); [lia|done..].
Qed.

Lemma StronglySorted_take_drop {A} (R : relation A) l n m :
  StronglySorted R l → StronglySorted R (take n (drop m l)).
Proof.
  intros Hl. rewrite <- (take_drop m l) in Hl.
  apply StronglySorted_app_1_r in Hl.
  rewrite <- (take_drop n (drop m l)) in Hl.
  by apply StronglySorted_app_1_l in Hl.
Qed.

Lemma StronglySorted_newest_first rows :
  StronglySorted (row_before "created_at" true) rows → newest_first rows.
Proof.
  intros Hs i j ri rj ti tj Hij Hi Hj Hti Htj.
  pose proof (StronglySorted_lookup _ _ _ _ _ _ Hs Hij Hi Hj) as Hb.
  unfold row_before, sort_key in Hb. by rewrite Hti, Htj in Hb.
Qed.

Lemma embed_profile_lookup profs (r : dict) k :
  k ≠ "profiles" → embed_profile profs r !! k = r !! k.
Proof. intros. unfold embed_profile. by rewrite lookup_insert_ne. Qed.

Lemma get_blogs_run db skip limit w :
  crud_blog.get_blogs db skip limit true w =
  let found := merge_sort (row_before "created_at" true)
                 (filter (λ r, matches [("published", VBool true)] r)
                    (blogs w)) in
  let w1 := add_events
              [EvStore db "blogs" (OpSelect "*, profiles(username)")
                 [("published", VBool true)]] w in
  if bool_decide (0 ≤ skip ∧ 0 ≤ skip + limit - 1 - skip + 1) then
    (Return (embed_profile (profiles w) <$>
               take (Z.to_nat (skip + limit - 1 - skip + 1))
                 (drop (Z.to_nat skip) found)), w1)
  else (Raise (APIError "Requested range not satisfiable"), w1).
Proof.
  unfold crud_blog.get_blogs, execute, mbind, M_bind, log, get_world.
  simpl. unfold run_select, apply_range. simpl.
  case_bool_decide; reflexivity.
Qed.

Lemma get_blogs_by_author_run db author_id w :
  crud_blog.get_blogs_by_author db author_id w =
  (Return (merge_sort (row_before "created_at" true)
             (filter (λ r, matches [("author_id", VStr author_id)] r)
                (blogs w))),
   add_events [EvStore db "blogs" (OpSelect "*")
                 [("author_id", VStr author_id)]] w).
Proof. reflexivity. Qed.

Lemma published_page (w : World) n m :
  let found := merge_sort (row_before "created_at" true)
                 (filter (λ r, matches [("published", VBool true)] r)
                    (blogs w)) in
  let page := embed_profile (profiles w) <$> take n (drop m found) in
  Forall (λ r : dict,
            r !! "published" = Some (VBool true) ∧
            ∃ r0, r0 ∈ blogs w ∧ r = embed_profile (profiles w) r0) page ∧
  newest_first page.
Proof.
  intros found page. split.
  - apply Forall_forall. intros r Hr.
    apply list_elem_of_fmap in Hr as (r0 & -> & Hr0).
    apply subseteq_take, subseteq_drop in Hr0.
    unfold found in Hr0. rewrite merge_sort_Permutation in Hr0.
    apply list_elem_of_filter in Hr0 as [Hp Hin].
    apply matches_singleton_true in Hp.
    split; [by rewrite embed_profile_lookup|eauto].
  - apply StronglySorted_newest_first.
    apply (StronglySorted_fmap _ (row_before "created_at" true)
             (row_before "created_at" true)).
    + intros r1 r2. unfold row_before, sort_key.
      by rewrite !embed_profile_lookup.
    + apply StronglySorted_take_drop.
      apply StronglySorted_merge_sort; apply _.
Qed.



(** The two listings on the small world: the drafts "b2" and "b4" are
    left out of the public one, and "b4" is in its author's. *)
Example GET_blogs_demo :
  match (GET_blogs 0 20 demo.world).1 with
  | Success _ rows => (λ r : dict, r !! "id") <$> rows
  | Failure _ _ _ => []
  end = [Some (VStr "b3"); Some (VStr "b1")].
Proof. by_computation. Qed.

Example GET_blogs_me_demo :
  match (GET_blogs_me (Some (demo.token_of "u1")) demo.world).1 with
  | Success _ rows => (λ r : dict, r !! "id") <$> rows
  | Failure _ _ _ => []
  end = [Some (VStr "b4"); Some (VStr "b3"); Some (VStr "b1")].
Proof. by_computation. Qed.

(** ** Partial updates *)

Lemma patched_frame blog_id (payload : dict) rows i r :
  rows !! i = Some r →
  ∃ r', patched blog_id payload rows !! i = Some r' ∧
        (∀ k, payload !! k = None → r' !! k = r !! k) ∧
        (r !! "id" ≠ Some (VStr blog_id) → r' = r).
Proof.
  intros Hi. unfold patched. rewrite list_lookup_fmap, Hi. cbn -[matches].
  destruct (decide (matches [("id", VStr blog_id)] r)) as [Hm|Hm].
  - rewrite (Is_true_true_1 _ Hm). eexists. split; [done|]. split.
    + intros k Hk. by apply lookup_union_r.
    + intros Hne. by apply matches_singleton_true in Hm.
  - rewrite (Is_true_false_1 _ Hm). eexists. by split.
Qed.

(** C10.  On a PATCH by the author, the update payload holds the supplied
    fields and no others; the one update issued carries that payload, and
    every row of the store keeps each column the payload does not name,
    rows with another id being kept whole.  When no field is supplied no
    update is issued: the store is as before and the answer is 200 with
    the existing row. *)
Theorem C10_partial_update
    authorization blog_id blog (w w1 : World) current_user row :
  current_user_dependency authorization w = (Return current_user, w1) →
  blog_with_id blog_id w = Some row →
  row !! "author_id"
    = Some (VStr (UUID.str (UserResponse.id current_user))) →
  let payload := BlogUpdate.model_dump_exclude_none blog in
  let lookup := select_by supabase "blogs" "id" blog_id in
  (payload !! "title" = VStr <$> BlogUpdate.title blog ∧
   payload !! "body" = VStr <$> BlogUpdate.body blog ∧
   payload !! "published" = VBool <$> BlogUpdate.published blog ∧
   ∀ k, k ≠ "title" → k ≠ "body" → k ≠ "published" → payload !! k = None) ∧
  ∃ w',
    PATCH_blog authorization blog_id blog w
      = (Success 200 (payload ∪ row), w') ∧
    (∀ i r, blogs w !! i = Some r →
       ∃ r', blogs w' !! i = Some r' ∧
             (∀ k, payload !! k = None → r' !! k = r !! k) ∧
             (r !! "id" ≠ Some (VStr blog_id) → r' = r)) ∧
    length (blogs w') = length (blogs w) ∧
    (payload ≠ ∅ →
       trace w' = (trace w1 ++
         [lookup;
          EvStore supabase "blogs" (OpUpdate payload)
            [("id", VStr blog_id)]])%list) ∧
    (BlogUpdate.title blog = None → BlogUpdate.body blog = None →
     BlogUpdate.published blog = None →
       payload ∪ row = row ∧
       blogs w' = blogs w ∧
       trace w' = (trace w1 ++ [lookup; lookup])%list ∧
       filter is_mutation (trace w') = filter is_mutation (trace w)).
Proof.
  intros Hauth Hrow Hauthor payload lookup.
  split.
  { split_and!.
    - apply model_dump_exclude_none_title.
    - apply model_dump_exclude_none_body.
    - apply model_dump_exclude_none_published.
    - intros k. apply model_dump_exclude_none_other. }
  pose proof (current_user_dependency_only_reads _ _ _ _ Hauth) as Hreads.
  pose proof (blog_with_id_only_reads blog_id _ _ Hreads) as Hsame.
  destruct Hreads as (evs & Hw1 & Hevs).
  assert (blogs w1 = blogs w) as Hblogs by by rewrite Hw1.
  rewrite <- Hsame in Hrow.
  destruct (patch_owner blog_id blog _ _ _ Hrow Hauthor)
    as (w' & Hrun & Hb & _ & Htrace).
  fold payload lookup in Hrun, Hb, Htrace.
  exists w'. split.
  { unfold PATCH_blog.
    rewrite (serve_authenticated _ _ _ _ _ _ Hauth). exact Hrun. }
  rewrite Hb, Hblogs. split_and!.
  - intros i r. apply patched_frame.
  - unfold patched. by rewrite length_fmap.
  - intros Hne. by rewrite Htrace, bool_decide_false.
  - intros Ht Hbd Hp.
    assert (payload = ∅) as Hempty
      by by apply model_dump_exclude_none_empty.
    rewrite Htrace, Hempty, bool_decide_true by done.
    split_and!.
    + apply (left_id_L ∅ (∪)).
    + apply patched_empty.
    + done.
    + rewrite Hw1. unfold add_events. cbn [trace].
      rewrite !filter_app.
      assert (filter is_mutation evs = []) as ->.
      { clear -Hevs. induction Hevs as [|e evs [He _] _ IH]; [done|].
        rewrite filter_cons, IH. by rewrite He. }
      by rewrite !app_nil_r.
Qed.

Lemma C10_partial_update_witness :
  ∃ w',
    PATCH_blog (Some (demo.token_of "u1")) "b1" demo.no_change demo.world
      = (Success 200 (demo.post "b1" "First post" "u1" true 10), w') ∧
    blogs w' = blogs demo.world ∧
    filter is_mutation (trace w') = [].
Proof.
  destruct (C10_partial_update (Some (demo.token_of "u1")) "b1" demo.no_change
              demo.world
              (add_events [select_by supabase "profiles" "id" "u1"] demo.world)
              demo.alice (demo.post "b1" "First post" "u1" true 10))
    as (_ & w' & Hrun & _ & _ & _ & Hnone).
  - by_computation.
  - by_computation.
  - by_computation.
  - destruct (Hnone eq_refl eq_refl eq_refl) as (Hrow & Hblogs & _ & Hmut).
    exists w'. rewrite <- Hrow at 1. split; [exact Hrun|]. split; assumption.
Defined.

(** * Further properties of the code *)

(** ** Tokens: what [decode_access_token] accepts *)


Lemma token_subject_outlived (w w' : World) (subject_id : string) expires_delta :
  now w + or_timedelta expires_delta
            (timedelta_minutes (access_token_expire_minutes (settings w)))
    < now w' →
  token_subject
    (jwt.encode
       (<["exp" := VInt (now w + or_timedelta expires_delta
            (timedelta_minutes (access_token_expire_minutes (settings w))))]>
          {[ "sub" := VStr subject_id ]})
       (secret_key (settings w)) (algorithm (settings w))) w' = None.
Proof.
  intros Hlate. unfold token_subject, jwt.encode, jwt.decode.
  repeat (destruct (negb _); [done|]).
  rewrite lookup_insert_eq. by rewrite bool_decide_true.
Qed.

(** X2.  The token [create_access_token] issues for a subject, with any
    duration argument, decodes to that subject at every time before
    issue time plus the duration in effect, and to [None] at every time
    after it (the duration in effect being the default when the argument is
    absent or zero). *)
Theorem X2_token_validity_window
    (w w' : World) (subject_id : string) (expires_delta : option Z) :
  settings w' = settings w →
  let lifetime := or_timedelta expires_delta
                    (timedelta_minutes
                       (access_token_expire_minutes (settings w))) in
  ∃ token,
    create_access_token {[ "sub" := VStr subject_id ]} expires_delta w
      = (Return token, w) ∧
    (now w' < now w + lifetime →
     decode_access_token token w'
       = (Return (Some (TokenData.make (Some subject_id))), w')) ∧
    (now w + lifetime < now w' →
     decode_access_token token w' = (Return None, w')).
Proof.
  intros Hs lifetime. eexists. split; [apply create_access_token_run|].
  split; intros Hnow; rewrite decode_access_token_run.
  - destruct (token_subject_issued w w' subject_id expires_delta Hs)
      as (token & Hc & Hd); [fold lifetime; lia|].
    rewrite create_access_token_run in Hc. injection Hc as <-.
    by rewrite Hd.
  - by rewrite token_subject_outlived.
Qed.

Lemma X2_token_validity_window_witness :
  (∃ token,
     create_access_token {[ "sub" := VStr "u1" ]} (Some 120) demo.world
       = (Return token, demo.world) ∧
     decode_access_token token (demo.later 119 demo.world)
       = (Return (Some (TokenData.make (Some "u1"))),
          demo.later 119 demo.world)) ∧
  (∃ token,
     create_access_token {[ "sub" := VStr "u1" ]} (Some 120) demo.world
       = (Return token, demo.world) ∧
     decode_access_token token (demo.later 121 demo.world)
       = (Return None, demo.later 121 demo.world)).
Proof.
  split.
  - destruct (X2_token_validity_window demo.world (demo.later 119 demo.world)
                "u1" (Some 120) eq_refl) as (token & Hc & Hin & _).
    exists token. split; [exact Hc|]. apply Hin. reflexivity.
  - destruct (X2_token_validity_window demo.world (demo.later 121 demo.world)
                "u1" (Some 120) eq_refl) as (token & Hc & _ & Hout).
    exists token. split; [exact Hc|]. apply Hout. reflexivity.
Defined.

(** X3.  A token issued under one secret or algorithm decodes to [None]
    under settings with another secret or another algorithm, at any
    time. *)
Theorem X3_foreign_token_rejected
    (w w' : World) (data : dict) (expires_delta : option Z) :
  secret_key (settings w') ≠ secret_key (settings w) ∨
  algorithm (settings w') ≠ algorithm (settings w) →
  ∃ token,
    create_access_token data expires_delta w = (Return token, w) ∧
    decode_access_token token w' = (Return None, w').
Proof.
  intros Hdiff. eexists. split; [apply create_access_token_run|].
  rewrite decode_access_token_run. unfold token_subject, jwt.encode, jwt.decode.
  destruct (decide (algorithm (settings w) = algorithm (settings w')))
    as [Halg|Halg].
  - destruct Hdiff as [Hkey|Hne]; [|congruence].
    destruct (negb (bool_decide (_ ∈ _))); [done|].
    rewrite bool_decide_false; [done|]. congruence.
  - rewrite bool_decide_false; [done|].
    rewrite list_elem_of_singleton. congruence.
Qed.

Lemma X3_foreign_token_rejected_witness :
  ∃ token,
    create_access_token {[ "sub" := VStr "u1" ]} None scenario.foreign_world
      = (Return token, scenario.foreign_world) ∧
    decode_access_token token demo.world = (Return None, demo.world).
Proof.
  apply (X3_foreign_token_rejected scenario.foreign_world demo.world).
  left. discriminate.
Defined.

(** ** Identity: from a token to a profile *)

(** X4.  A token issued (with the default duration, not negative) for the
    id of a stored profile that fits the response schema resolves, in the
    same world, to that profile: [get_current_user] returns it and
    GET /auth/me answers 200 with it. *)
Theorem X4_issued_token_resolves
    (w : World) (subject_id : string) (row : dict) (u : UserResponse.t) :
  profile_with_id subject_id w = Some row →
  UserResponse.validate row = Return u →
  0 ≤ access_token_expire_minutes (settings w) →
  ∃ token,
    create_access_token {[ "sub" := VStr subject_id ]} None w
      = (Return token, w) ∧
    (get_current_user token w).1 = Return u ∧
    (GET_auth_me (Some token) w).1 = Success 200 u ∧
    UserResponse.id u = UUID.make subject_id.
Proof.
  intros Hrow Hvalid Hmin.
  destruct (token_subject_issued w w subject_id None eq_refl)
    as (token & Hc & Hd).
  { unfold or_timedelta, timedelta_minutes. lia. }
  exists token. split; [done|].
  assert (get_current_user token w
          = (Return u,
             add_events [select_by supabase "profiles" "id" subject_id] w))
    as Hrun by by rewrite get_current_user_run, Hd, Hrow, Hvalid.
  split_and!.
  - by rewrite Hrun.
  - unfold GET_auth_me, current_user_dependency, serve.
    rewrite !bind_run. simpl. by rewrite Hrun.
  - apply validate_returns in Hvalid as (_ & _ & Hid & _).
    apply row_with_Some in Hrow as (_ & Hrid & _).
    rewrite Hrid in Hid. destruct (UserResponse.id u). simpl in *. congruence.
Qed.

Lemma X4_issued_token_resolves_witness :
  ∃ token,
    create_access_token {[ "sub" := VStr "u2" ]} None demo.world
      = (Return token, demo.world) ∧
    (get_current_user token demo.world).1 = Return demo.bob ∧
    (GET_auth_me (Some token) demo.world).1 = Success 200 demo.bob ∧
    UserResponse.id demo.bob = UUID.make "u2".
Proof.
  apply (X4_issued_token_resolves demo.world "u2"
           (demo.profile "u2" "bob" "bob@example.org" 2) demo.bob).
  - by_computation.
  - by_computation.
  - discriminate.
Defined.

(** X5.  When the identity dependency refuses a request, each protected
    endpoint answers with that one refusal (401, or 500 for a stored
    profile outside the response schema) and its handler does not run:
    since the request arrived there were lookups at most, nothing was
    written and the provider was not called. *)
Theorem X5_refused_request_runs_no_handler
    authorization blog_id blog update (w w1 : World) (e : Exn) :
  current_user_dependency authorization w = (Raise e, w1) →
  ∃ code detail headers,
    (code = 401 ∨ code = 500) ∧
    only_reads w w1 ∧
    GET_auth_me authorization w = (Failure code detail headers, w1) ∧
    GET_blogs_me authorization w = (Failure code detail headers, w1) ∧
    POST_blogs authorization blog w = (Failure code detail headers, w1) ∧
    PATCH_blog authorization blog_id update w
      = (Failure code detail headers, w1) ∧
    DELETE_blog authorization blog_id w = (Failure code detail headers, w1).
Proof.
  intros Hauth.
  pose proof (current_user_dependency_only_reads _ _ _ _ Hauth) as Hreads.
  unfold GET_auth_me, GET_blogs_me, POST_blogs, PATCH_blog, DELETE_blog.
  rewrite !(serve_unauthenticated _ _ _ _ _ _ Hauth).
  destruct (current_user_dependency_raises _ _ _ _ Hauth)
    as [(detail & headers & ->)|(msg & ->)].
  - exists 401, detail, headers. split_and!; try done. by left.
  - exists 500, "Internal Server Error", []. split_and!; try done. by right.
Qed.

Lemma X5_refused_request_runs_no_handler_witness :
  ∃ code detail headers,
    (code = 401 ∨ code = 500) ∧
    only_reads demo.world demo.world ∧
    GET_auth_me None demo.world
      = (Failure code detail headers, demo.world) ∧
    GET_blogs_me None demo.world
      = (Failure code detail headers, demo.world) ∧
    POST_blogs None demo.hello demo.world
      = (Failure code detail headers, demo.world) ∧
    PATCH_blog None "b1" demo.retitle demo.world
      = (Failure code detail headers, demo.world) ∧
    DELETE_blog None "b1" demo.world
      = (Failure code detail headers, demo.world).
Proof.
  apply (X5_refused_request_runs_no_handler None "b1" demo.hello
           demo.retitle demo.world demo.world
           (HTTPException 401 "Not authenticated"
              [("WWW-Authenticate", "Bearer")])).
  reflexivity.
Defined.

(** ** Registration and login *)

(** The world a registration leaves when the provider made a user. *)
Lemma register_accepted user_data (w : World) auth_user :
  let email := UserCreate.email user_data in
  let password := UserCreate.password user_data in
  let user_id := auth_user_id auth_user in
  let payload : dict :=
    {[ "id" := VStr user_id;
       "username" := VStr (UserCreate.username user_data);
       "email" := VStr email ]} in
  let row := payload ∪ column_defaults "profiles" w in
  row_with "email" email (profiles w) = None →
  sign_up_reply w email password
    = ReplyResponse {| user := Some auth_user |} →
  ∃ token w',
    routers_auth.register user_data w
      = (Return (Token.make token "bearer"), w') ∧
    create_access_token {[ "sub" := VStr user_id ]} None w
      = (Return token, w) ∧
    profiles w' = (profiles w ++ [row])%list ∧
    blogs w' = blogs w ∧
    settings w' = settings w ∧
    now w' = now w ∧
    sign_up_reply w' = sign_up_reply w ∧
    trace w' = (trace w ++
      [select_by supabase_admin "profiles" "email" email;
       EvSignUp email password;
       EvStore supabase_admin "profiles" (OpInsert payload) []])%list.
Proof.
  intros email password user_id payload row Hfree Hreply.
  unfold routers_auth.register. rewrite bind_run, get_user_by_email_run.
  fold email password. rewrite Hfree. simpl.
  rewrite bind_run. unfold try_except, auth_sign_up.
  rewrite bind_run. simpl. rewrite bind_run. simpl. rewrite Hreply. simpl.
  rewrite bind_run. unfold crud_user.create_user_profile.
  rewrite bind_run. simpl. rewrite bind_run, create_access_token_run.
  eexists _, _. split; [done|]. split; [by rewrite create_access_token_run|].
  simpl. split_and!; try done. by rewrite <- !app_assoc.
Qed.

(** X6.  A registration of a free address that the provider accepts
    answers 201 with a bearer token issued for the provider's id, after
    three requests in this order: the lookup by email, the sign-up with the
    address and password, and the insert of a profile carrying the
    provider's id, the username and the address.  That row is appended to
    the profiles, stamped with the current time; the blogs are untouched. *)
Theorem X6_accepted_registration
    user_data (w : World) (auth_user : AuthUser) :
  let email := UserCreate.email user_data in
  let password := UserCreate.password user_data in
  let user_id := auth_user_id auth_user in
  let payload : dict :=
    {[ "id" := VStr user_id;
       "username" := VStr (UserCreate.username user_data);
       "email" := VStr email ]} in
  Forall (λ p : dict, p !! "email" ≠ Some (VStr email)) (profiles w) →
  sign_up_reply w email password
    = ReplyResponse {| user := Some auth_user |} →
  ∃ token w',
    POST_auth_register user_data w
      = (Success 201 (Token.make token "bearer"), w') ∧
    create_access_token {[ "sub" := VStr user_id ]} None w
      = (Return token, w) ∧
    profiles w' = (profiles w ++ [<["created_at" := VInt (now w)]> payload])%list ∧
    blogs w' = blogs w ∧
    trace w' = (trace w ++
      [select_by supabase_admin "profiles" "email" email;
       EvSignUp email password;
       EvStore supabase_admin "profiles" (OpInsert payload) []])%list.
Proof.
  intros email password user_id payload Hfree Hreply.
  apply row_with_None in Hfree.
  destruct (register_accepted user_data w auth_user Hfree Hreply)
    as (token & w' & Hrun & Hc & Hp & Hb & _ & _ & _ & Ht).
  exists token, w'. unfold POST_auth_register, serve. rewrite Hrun.
  split_and!; done.
Qed.

Lemma X6_accepted_registration_witness :
  ∃ token w',
    POST_auth_register
      (UserCreate.make "carol" "carol@example.org" "correct horse")
      demo.world
      = (Success 201 (Token.make token "bearer"), w') ∧
    create_access_token {[ "sub" := VStr "u3" ]} None demo.world
      = (Return token, demo.world) ∧
    profiles w'
      = (profiles demo.world ++
         [<["created_at" := VInt 1000]>
            ({[ "id" := VStr "u3"; "username" := VStr "carol";
                "email" := VStr "carol@example.org" ]} : dict)])%list ∧
    blogs w' = blogs demo.world ∧
    trace w' = (trace demo.world ++
      [select_by supabase_admin "profiles" "email" "carol@example.org";
       EvSignUp "carol@example.org" "correct horse";
       EvStore supabase_admin "profiles"
         (OpInsert {[ "id" := VStr "u3"; "username" := VStr "carol";
                      "email" := VStr "carol@example.org" ]}) []])%list.
Proof.
  apply (X6_accepted_registration
           (UserCreate.make "carol" "carol@example.org" "correct horse")
           demo.world {| auth_user_id := "u3" |}).
  - repeat constructor; discriminate.
  - reflexivity.
Defined.

(** X7.  When the provider turns a registration down, by raising an error
    or by answering without a user, the sign-up was the last request
    issued: no profile is inserted and both tables are as before. *)
Theorem X7_rejected_registration_writes_nothing user_data (w : World) :
  let email := UserCreate.email user_data in
  let password := UserCreate.password user_data in
  Forall (λ p : dict, p !! "email" ≠ Some (VStr email)) (profiles w) →
  (∃ msg, sign_up_reply w email password = ReplyError msg) ∨
  sign_up_reply w email password = ReplyResponse {| user := None |} →
  ∃ r w',
    POST_auth_register user_data w = (r, w') ∧
    (status r = 400 ∨ status r = 500) ∧
    profiles w' = profiles w ∧
    blogs w' = blogs w ∧
    trace w' = (trace w ++
      [select_by supabase_admin "profiles" "email" email;
       EvSignUp email password])%list.
Proof.
  intros email password Hfree Hreply. apply row_with_None in Hfree.
  pose proof (register_run user_data w) as Hrun. simpl in Hrun.
  fold email password in Hrun. rewrite Hfree in Hrun.
  unfold POST_auth_register, serve.
  destruct Hreply as [[msg Hreply]|Hreply]; rewrite Hreply in Hrun;
    rewrite Hrun; simpl; eexists _, _; (split; [done|]); simpl;
    (split_and!; [auto|done|done|by rewrite <- app_assoc]).
Qed.

Lemma X7_rejected_registration_writes_nothing_witness :
  ∃ r w',
    POST_auth_register (UserCreate.make "carol" "carol@example.org" "weak")
      demo.world = (r, w') ∧
    (status r = 400 ∨ status r = 500) ∧
    profiles w' = profiles demo.world ∧
    blogs w' = blogs demo.world ∧
    trace w' = (trace demo.world ++
      [select_by supabase_admin "profiles" "email" "carol@example.org";
       EvSignUp "carol@example.org" "weak"])%list.
Proof.
  apply (X7_rejected_registration_writes_nothing
           (UserCreate.make "carol" "carol@example.org" "weak") demo.world).
  - repeat constructor; discriminate.
  - left. by exists "Password is too weak".
Defined.

Lemma row_with_app_fresh column v (rows : list dict) (r : dict) :
  Forall (λ r0 : dict, r0 !! column ≠ Some (VStr v)) rows →
  r !! column = Some (VStr v) →
  row_with column v (rows ++ [r]) = Some r.
Proof.
  intros Hfresh Hr. apply row_with_None in Hfresh.
  unfold row_with in *. rewrite filter_app.
  destruct (filter _ rows); [|done]. simpl.
  rewrite filter_cons, decide_True; [done|].
  by apply matches_singleton_true.
Qed.

Lemma validate_new_profile (user_id username email : string) (w : World) :
  (3 ≤ String.length username ≤ 50)%nat →
  UserResponse.validate
    ({[ "id" := VStr user_id; "username" := VStr username;
        "email" := VStr email ]} ∪ column_defaults "profiles" w)
  = Return (UserResponse.make username email (UUID.make user_id) (now w)).
Proof.
  intros Hname. unfold UserResponse.validate.
  set (row := _ ∪ _).
  assert (row !! "username" = Some (VStr username)) as -> by reflexivity.
  assert (row !! "email" = Some (VStr email)) as -> by reflexivity.
  assert (row !! "id" = Some (VStr user_id)) as -> by reflexivity.
  assert (row !! "created_at" = Some (VInt (now w))) as -> by reflexivity.
  by rewrite bool_decide_true.
Qed.

(** X8.  The token a successful registration returns resolves to the
    profile just created: presented to GET /auth/me in the world the
    registration left, it is answered 200 with the registered username and
    address, the provider's id and the time of registration.  (The
    provider's id must not already name a profile, the username must fit
    the schema, and the configured token duration must not be negative.) *)
Theorem X8_registered_user_is_resolved
    user_data (w : World) (auth_user : AuthUser) :
  let email := UserCreate.email user_data in
  let username := UserCreate.username user_data in
  let user_id := auth_user_id auth_user in
  Forall (λ p : dict, p !! "email" ≠ Some (VStr email)) (profiles w) →
  Forall (λ p : dict, p !! "id" ≠ Some (VStr user_id)) (profiles w) →
  sign_up_reply w email (UserCreate.password user_data)
    = ReplyResponse {| user := Some auth_user |} →
  (3 ≤ String.length username ≤ 50)%nat →
  0 ≤ access_token_expire_minutes (settings w) →
  ∃ token w',
    POST_auth_register user_data w
      = (Success 201 (Token.make token "bearer"), w') ∧
    (GET_auth_me (Some token) w').1
      = Success 200
          (UserResponse.make username email (UUID.make user_id) (now w)).
Proof.
  intros email username user_id Hfree Hnew Hreply Hname Hmin.
  apply row_with_None in Hfree.
  destruct (register_accepted user_data w auth_user Hfree Hreply)
    as (token & w' & Hrun & Hc & Hp & _ & Hs & Hn & _ & _).
  exists token, w'. unfold POST_auth_register, serve. rewrite Hrun.
  split; [done|].
  destruct (token_subject_issued w w' user_id None Hs) as (token0 & Hc0 & Hd).
  { rewrite Hn. unfold or_timedelta, timedelta_minutes. lia. }
  fold user_id in Hc. rewrite Hc in Hc0. injection Hc0 as <-.
  unfold GET_auth_me, current_user_dependency, serve. rewrite !bind_run. simpl.
  rewrite get_current_user_run, Hd. unfold profile_with_id. rewrite Hp.
  rewrite (row_with_app_fresh "id" user_id _ _ Hnew) by done.
  by rewrite validate_new_profile.
Qed.

Lemma X8_registered_user_is_resolved_witness :
  ∃ token w',
    POST_auth_register
      (UserCreate.make "carol" "carol@example.org" "correct horse")
      demo.world
      = (Success 201 (Token.make token "bearer"), w') ∧
    (GET_auth_me (Some token) w').1
      = Success 200
          (UserResponse.make "carol" "carol@example.org" (UUID.make "u3")
             1000).
Proof.
  apply (X8_registered_user_is_resolved
           (UserCreate.make "carol" "carol@example.org" "correct horse")
           demo.world {| auth_user_id := "u3" |}).
  - repeat constructor; discriminate.
  - repeat constructor; discriminate.
  - reflexivity.
  - simpl. lia.
  - discriminate.
Defined.

(** X9.  Once a registration has succeeded, a further registration with
    the same address, whatever its username and password, is refused with
    400 after the lookup alone: the provider is not called again and no
    second profile is written. *)
Theorem X9_address_registers_once
    user_data user_data' (w : World) (auth_user : AuthUser) :
  let email := UserCreate.email user_data in
  Forall (λ p : dict, p !! "email" ≠ Some (VStr email)) (profiles w) →
  sign_up_reply w email (UserCreate.password user_data)
    = ReplyResponse {| user := Some auth_user |} →
  UserCreate.email user_data' = email →
  ∃ token w' w'',
    POST_auth_register user_data w
      = (Success 201 (Token.make token "bearer"), w') ∧
    POST_auth_register user_data' w'
      = (Failure 400 "An account with this email already exists" [], w'') ∧
    profiles w'' = profiles w' ∧
    trace w'' = (trace w' ++
      [select_by supabase_admin "profiles" "email" email])%list.
Proof.
  intros email Hfree Hreply Hsame. apply row_with_None in Hfree.
  destruct (register_accepted user_data w auth_user Hfree Hreply)
    as (token & w' & Hrun & _ & Hp & _).
  exists token, w'.
  pose proof (register_run user_data' w') as Hrun'. simpl in Hrun'.
  rewrite Hsame in Hrun'. fold email in Hp.
  destruct (row_with_exists "email" email (profiles w')
              ({[ "id" := VStr (auth_user_id auth_user);
                  "username" := VStr (UserCreate.username user_data);
                  "email" := VStr email ]}
               ∪ column_defaults "profiles" w)) as [r0 Hr0].
  { rewrite Hp. apply elem_of_app. right. left. }
  { done. }
  rewrite Hr0 in Hrun'.
  eexists. unfold POST_auth_register, serve. rewrite Hrun, Hrun'.
  by split_and!.
Qed.

Lemma X9_address_registers_once_witness :
  ∃ token w' w'',
    POST_auth_register
      (UserCreate.make "carol" "carol@example.org" "correct horse")
      demo.world
      = (Success 201 (Token.make token "bearer"), w') ∧
    POST_auth_register
      (UserCreate.make "carla" "carol@example.org" "another password") w'
      = (Failure 400 "An account with this email already exists" [], w'') ∧
    profiles w'' = profiles w' ∧
    trace w'' = (trace w' ++
      [select_by supabase_admin "profiles" "email" "carol@example.org"])%list.
Proof.
  apply (X9_address_registers_once
           (UserCreate.make "carol" "carol@example.org" "correct horse")
           (UserCreate.make "carla" "carol@example.org" "another password")
           demo.world {| auth_user_id := "u3" |}).
  - repeat constructor; discriminate.
  - reflexivity.
  - reflexivity.
Defined.

Lemma login_run username password (w : World) :
  routers_auth.login username password w =
  (match sign_in_reply w username password with
   | ReplyError _ =>
       Raise (HTTPException 401 "Invalid email or password"
                [("WWW-Authenticate", "Bearer")])
   | ReplyResponse {| user := None |} => Raise (AttributeError "id")
   | ReplyResponse {| user := Some auth_user |} =>
       Return (Token.make
                 (jwt.encode
                    (<["exp" := VInt (now w + timedelta_minutes
                         (access_token_expire_minutes (settings w)))]>
                       {[ "sub" := VStr (auth_user_id auth_user) ]})
                    (secret_key (settings w)) (algorithm (settings w)))
                 "bearer")
   end,
   add_events [EvSignIn username password] w).
Proof.
  unfold routers_auth.login, try_except, auth_sign_in_with_password.
  rewrite bind_run. rewrite bind_run. simpl. rewrite bind_run. simpl.
  by destruct (sign_in_reply w username password) as [msg|[[auth_user|]]].
Qed.

(** X10.  A login issues one request, the provider's sign-in with the
    submitted name as address, and none to the store: no profile is looked
    up and nothing is written.  A provider error is answered 401 "Invalid
    email or password" with the header WWW-Authenticate: Bearer; a user is
    answered 200 with a bearer token issued for the provider's id; a
    response without a user ends in 500. *)
Theorem X10_login_asks_the_provider_only username password (w : World) :
  ∃ r,
    POST_auth_login username password w
      = (r, add_events [EvSignIn username password] w) ∧
    (∀ msg, sign_in_reply w username password = ReplyError msg →
       r = Failure 401 "Invalid email or password"
             [("WWW-Authenticate", "Bearer")]) ∧
    (∀ auth_user,
       sign_in_reply w username password
         = ReplyResponse {| user := Some auth_user |} →
       ∃ token,
         r = Success 200 (Token.make token "bearer") ∧
         create_access_token {[ "sub" := VStr (auth_user_id auth_user) ]}
           None w = (Return token, w)) ∧
    (sign_in_reply w username password = ReplyResponse {| user := None |} →
       status r = 500).
Proof.
  unfold POST_auth_login, serve. rewrite login_run.
  destruct (sign_in_reply w username password) as [msg|[[auth_user|]]];
    eexists; (split; [done|]); split_and!; try done.
  intros ? [= <-]. eexists. split; [done|]. apply create_access_token_run.
Qed.

(** X11.  An identity the provider knows but for which no profile row
    exists can log in, and the token it gets is refused by the identity
    resolver: GET /auth/me and POST /blogs/ answer 401 "Could not validate
    credentials", and the blog is not created. *)
Theorem X11_login_without_profile
    username password blog (w : World) (auth_user : AuthUser) :
  sign_in_reply w username password
    = ReplyResponse {| user := Some auth_user |} →
  Forall (λ p : dict, p !! "id" ≠ Some (VStr (auth_user_id auth_user)))
    (profiles w) →
  0 ≤ access_token_expire_minutes (settings w) →
  ∃ token w',
    POST_auth_login username password w
      = (Success 200 (Token.make token "bearer"), w') ∧
    (GET_auth_me (Some token) w').1
      = Failure 401 "Could not validate credentials"
          [("WWW-Authenticate", "Bearer")] ∧
    (POST_blogs (Some token) blog w').1
      = Failure 401 "Could not validate credentials"
          [("WWW-Authenticate", "Bearer")] ∧
    blogs (POST_blogs (Some token) blog w').2 = blogs w.
Proof.
  intros Hreply Hnone Hmin. apply row_with_None in Hnone.
  set (w' := add_events [EvSignIn username password] w).
  destruct (token_subject_issued w w' (auth_user_id auth_user) None eq_refl)
    as (token & Hc & Hd).
  { simpl. unfold timedelta_minutes. lia. }
  exists token, w'. split.
  { unfold POST_auth_login, serve. rewrite login_run, Hreply.
    rewrite create_access_token_run in Hc. by injection Hc as <-. }
  assert (get_current_user token w'
          = (Raise credentials_exception,
             add_events [select_by supabase "profiles" "id"
                           (auth_user_id auth_user)] w')) as Hrun.
  { rewrite get_current_user_run, Hd. unfold profile_with_id.
    change (profiles w') with (profiles w). by rewrite Hnone. }
  unfold GET_auth_me, POST_blogs, current_user_dependency, serve.
  rewrite !bind_run. simpl. by rewrite Hrun.
Qed.

Lemma X11_login_without_profile_witness :
  ∃ token w',
    POST_auth_login "dave@example.org" "correct horse"
      scenario.foreign_world
      = (Success 200 (Token.make token "bearer"), w') ∧
    (GET_auth_me (Some token) w').1
      = Failure 401 "Could not validate credentials"
          [("WWW-Authenticate", "Bearer")] ∧
    (POST_blogs (Some token) demo.hello w').1
      = Failure 401 "Could not validate credentials"
          [("WWW-Authenticate", "Bearer")] ∧
    blogs (POST_blogs (Some token) demo.hello w').2
      = blogs scenario.foreign_world.
Proof.
  apply (X11_login_without_profile "dave@example.org" "correct horse"
           demo.hello scenario.foreign_world {| auth_user_id := "u3" |}).
  - reflexivity.
  - constructor.
  - discriminate.
Defined.

Lemma X10_login_asks_the_provider_only_witness :
  POST_auth_login "alice@example.org" "wrong password" demo.world
  = (Failure 401 "Invalid email or password" [("WWW-Authenticate", "Bearer")],
     add_events [EvSignIn "alice@example.org" "wrong password"] demo.world).
Proof.
  destruct (X10_login_asks_the_provider_only
              "alice@example.org" "wrong password" demo.world)
    as (r & Hrun & Hrefused & _).
  rewrite Hrun. f_equal. apply (Hrefused "Invalid login credentials").
  reflexivity.
Defined.

(** ** Reading single rows *)

Lemma get_blog_handler_run blog_id (w : World) :
  routers_blogs.get_blog blog_id w =
  (match blog_with_id blog_id w with
   | Some row => Return row
   | None => Raise (HTTPException 404
                      ("Blog with id '" +:+ blog_id +:+ "' not found") [])
   end,
   add_events [select_by supabase "blogs" "id" blog_id] w).
Proof.
  unfold routers_blogs.get_blog. rewrite bind_run, get_blog_run. simpl.
  destruct (blog_with_id blog_id w) as [row|] eqn:Hrow; [|done].
  apply row_with_Some in Hrow as (_ & _ & Ht).
  rewrite bind_run. unfold raise_if_not. by rewrite Ht.
Qed.

Lemma get_user_handler_run user_id (w : World) :
  routers_users.get_user user_id w =
  (match profile_with_id user_id w with
   | Some row => Return row
   | None => Raise (HTTPException 404
                      ("User with id '" +:+ user_id +:+ "' not found") [])
   end,
   add_events [select_by supabase "profiles" "id" user_id] w).
Proof.
  unfold routers_users.get_user. rewrite bind_run, get_user_by_id_run. simpl.
  destruct (profile_with_id user_id w) as [row|] eqn:Hrow; [|done].
  apply row_with_Some in Hrow as (_ & _ & Ht).
  rewrite bind_run. unfold raise_if_not. by rewrite Ht.
Qed.

(** X12.  GET /blogs/{id} asks for no credentials and does not look at
    [published]: if some row of the store has the id, a draft included,
    it answers 200 with a row of the store having that id; if none has, it
    answers 404 with detail "Blog with id '<id>' not found".  Either way
    the lookup is the only request issued. *)
Theorem X12_get_blog_by_id blog_id (w : World) :
  ∃ r,
    GET_blog blog_id w
      = (r, add_events [select_by supabase "blogs" "id" blog_id] w) ∧
    (Forall (λ b : dict, b !! "id" ≠ Some (VStr blog_id)) (blogs w) →
     r = Failure 404 ("Blog with id '" +:+ blog_id +:+ "' not found") []) ∧
    (∀ row, row ∈ blogs w → row !! "id" = Some (VStr blog_id) →
       ∃ found, r = Success 200 found ∧ found ∈ blogs w ∧
                found !! "id" = Some (VStr blog_id)).
Proof.
  unfold GET_blog, serve. rewrite get_blog_handler_run.
  destruct (blog_with_id blog_id w) as [found|] eqn:Hfound.
  - eexists. split; [done|]. split.
    + intros Hnone. apply row_with_None in Hnone.
      unfold blog_with_id in Hfound. congruence.
    + intros row _ _. apply row_with_Some in Hfound as (? & ? & _). eauto.
  - eexists. split; [done|]. split; [done|].
    intros row Hin Hid.
    destruct (row_with_exists _ _ _ _ Hin Hid) as [r0 Hr0].
    unfold blog_with_id in Hfound. congruence.
Qed.

Lemma X12_get_blog_by_id_witness :
  (∃ found,
     (GET_blog "b2" demo.world).1 = Success 200 found ∧
     found ∈ blogs demo.world ∧ found !! "id" = Some (VStr "b2")) ∧
  (GET_blog "b9" demo.world).1
    = Failure 404 "Blog with id 'b9' not found" [].
Proof.
  split.
  - destruct (X12_get_blog_by_id "b2" demo.world) as (r & Hrun & _ & Hfound).
    destruct (Hfound (demo.post "b2" "A draft" "u2" false 20))
      as (found & -> & Hin & Hid).
    + right. left.
    + by_computation.
    + exists found. rewrite Hrun. by split_and!.
  - destruct (X12_get_blog_by_id "b9" demo.world) as (r & Hrun & Hnone & _).
    rewrite Hrun. apply Hnone. repeat constructor; discriminate.
Defined.

(** X13.  GET /users/{id} answers 200 with a profile row of that id when
    the store has one and 404 with detail "User with id '<id>' not found"
    when it has none, after the one lookup by id. *)
Theorem X13_get_user_by_id user_id (w : World) :
  ∃ r,
    GET_user user_id w
      = (r, add_events [select_by supabase "profiles" "id" user_id] w) ∧
    (Forall (λ p : dict, p !! "id" ≠ Some (VStr user_id)) (profiles w) →
     r = Failure 404 ("User with id '" +:+ user_id +:+ "' not found") []) ∧
    (∀ row, row ∈ profiles w → row !! "id" = Some (VStr user_id) →
       ∃ found, r = Success 200 found ∧ found ∈ profiles w ∧
                found !! "id" = Some (VStr user_id)).
Proof.
  unfold GET_user, serve. rewrite get_user_handler_run.
  destruct (profile_with_id user_id w) as [found|] eqn:Hfound.
  - eexists. split; [done|]. split.
    + intros Hnone. apply row_with_None in Hnone.
      unfold profile_with_id in Hfound. congruence.
    + intros row _ _. apply row_with_Some in Hfound as (? & ? & _). eauto.
  - eexists. split; [done|]. split; [done|].
    intros row Hin Hid.
    destruct (row_with_exists _ _ _ _ Hin Hid) as [r0 Hr0].
    unfold profile_with_id in Hfound. congruence.
Qed.

Lemma X13_get_user_by_id_witness :
  (∃ found,
     (GET_user "u2" demo.world).1 = Success 200 found ∧
     found ∈ profiles demo.world ∧ found !! "id" = Some (VStr "u2")) ∧
  (GET_user "u9" demo.world).1
    = Failure 404 "User with id 'u9' not found" [].
Proof.
  split.
  - destruct (X13_get_user_by_id "u2" demo.world) as (r & Hrun & _ & Hfound).
    destruct (Hfound (demo.profile "u2" "bob" "bob@example.org" 2))
      as (found & -> & Hin & Hid).
    + right. left.
    + by_computation.
    + exists found. rewrite Hrun. by split_and!.
  - destruct (X13_get_user_by_id "u9" demo.world) as (r & Hrun & Hnone & _).
    rewrite Hrun. apply Hnone. repeat constructor; discriminate.
Defined.

(** ** What a request leaves behind *)

Lemma serve_world {A} code (m : M A) w : (serve code m w).2 = (m w).2.
Proof. unfold serve. by destruct (m w) as [[a|[]] w']. Qed.

Lemma bind_world_return {A B} (m : M A) (f : A → M B) w :
  (∀ a w', (f a w').2 = w') → ((m ≫= f) w).2 = (m w).2.
Proof. intros Hf. rewrite bind_run. destruct (m w) as [[a|e] w']; [apply Hf|done]. Qed.

(** The identity dependency reads the settings, the clock and the
    profiles, and nothing else. *)
Lemma current_user_dependency_stable authorization (w w' : World) :
  settings w' = settings w → now w' = now w → profiles w' = profiles w →
  (current_user_dependency authorization w').1
  = (current_user_dependency authorization w).1.
Proof.
  intros Hs Hn Hp. unfold current_user_dependency. rewrite !bind_run.
  destruct authorization as [token|]; simpl; [|done].
  rewrite !get_current_user_run.
  unfold token_subject, profile_with_id. rewrite Hs, Hn, Hp.
  by destruct (jwt.decode _ _ _ _) as [claims|];
    [destruct (claims !! "sub") as [[]|]|].
Qed.

Lemma current_user_dependency_again authorization (w w' : World) u w1 :
  current_user_dependency authorization w = (Return u, w1) →
  settings w' = settings w → now w' = now w → profiles w' = profiles w →
  ∃ w1', current_user_dependency authorization w' = (Return u, w1') ∧
         only_reads w' w1'.
Proof.
  intros Hauth Hs Hn Hp.
  pose proof (current_user_dependency_stable authorization w w' Hs Hn Hp) as H.
  rewrite Hauth in H. simpl in H.
  destruct (current_user_dependency authorization w') as [r w1'] eqn:Hauth'.
  simpl in H. subst r. exists w1'. split; [done|].
  by eapply current_user_dependency_only_reads.
Qed.

(** A partial update that does not name the id keeps every row findable
    under its id. *)
Lemma row_with_patched blog_id (payload : dict) rows :
  payload !! "id" = None →
  row_with "id" blog_id (patched blog_id payload rows)
  = (payload ∪.) <$> row_with "id" blog_id rows.
Proof.
  intros Hid. unfold row_with, patched.
  induction rows as [|r rows IH]; [done|].
  rewrite fmap_cons, !filter_cons.
  destruct (decide (matches [("id", VStr blog_id)] r)) as [Hm|Hm].
  - rewrite (Is_true_true_1 _ Hm). rewrite decide_True; [done|].
    apply matches_singleton_true. rewrite lookup_union_r by done.
    by apply matches_singleton_true.
  - rewrite (Is_true_false_1 _ Hm). by rewrite decide_False by done.
Qed.

Lemma patched_patched blog_id (payload : dict) rows :
  payload !! "id" = None →
  patched blog_id payload (patched blog_id payload rows)
  = patched blog_id payload rows.
Proof.
  intros Hid. unfold patched. rewrite <- list_fmap_compose.
  apply list_fmap_ext. intros _ r _. cbn -[matches].
  destruct (decide (matches [("id", VStr blog_id)] r)) as [Hm|Hm].
  - rewrite (Is_true_true_1 _ Hm).
    assert (matches [("id", VStr blog_id)] (payload ∪ r)) as Hm'.
    { apply matches_singleton_true. rewrite lookup_union_r by done.
      by apply matches_singleton_true. }
    rewrite (Is_true_true_1 _ Hm').
    by rewrite (assoc_L (∪)), (idemp_L (∪)).
  - rewrite (Is_true_false_1 _ Hm). by rewrite (Is_true_false_1 _ Hm).
Qed.

Lemma row_with_deleted blog_id rows :
  row_with "id" blog_id
    (filter (λ r, ¬ matches [("id", VStr blog_id)] r) rows) = None.
Proof.
  apply row_with_None, Forall_forall. intros r Hr Hid.
  apply list_elem_of_filter in Hr as [Hno _]. apply Hno.
  by apply matches_singleton_true.
Qed.

(** ** Creating, then reading *)

Lemma create_blog_world blog (u : UserResponse.t) (w : World) :
  let author := UUID.str (UserResponse.id u) in
  let payload := <["author_id" := VStr author]> (BlogCreate.model_dump blog) in
  let row := payload ∪ column_defaults "blogs" w in
  ∃ w',
    serve 201 (routers_blogs.create_blog blog u) w = (Success 201 row, w') ∧
    blogs w' = (blogs w ++ [row])%list ∧
    profiles w' = profiles w ∧ settings w' = settings w ∧ now w' = now w ∧
    row !! "id" = Some (VStr (pretty (next_id w))) ∧
    row !! "author_id" = Some (VStr author) ∧
    row !! "published" = Some (VBool (BlogCreate.published blog)).
Proof.
  intros author payload row. unfold serve, routers_blogs.create_blog.
  rewrite create_blog_run. simpl. eexists. split; [done|]. simpl.
  split_and!; try done.
Qed.

Lemma post_blogs_world authorization blog (w w1 : World) u :
  current_user_dependency authorization w = (Return u, w1) →
  ∃ row w' blog_id,
    POST_blogs authorization blog w = (Success 201 row, w') ∧
    blogs w' = (blogs w ++ [row])%list ∧
    profiles w' = profiles w ∧ settings w' = settings w ∧ now w' = now w ∧
    row !! "id" = Some (VStr blog_id) ∧
    row !! "author_id" = Some (VStr (UUID.str (UserResponse.id u))) ∧
    row !! "published" = Some (VBool (BlogCreate.published blog)).
Proof.
  intros Hauth.
  destruct (current_user_dependency_only_reads _ _ _ _ Hauth)
    as (evs & -> & _).
  destruct (create_blog_world blog u (add_events evs w))
    as (w' & Hrun & Hb & Hp & Hs & Hn & Hid & Ha & Hpub).
  eexists _, w', _. unfold POST_blogs.
  rewrite (serve_authenticated _ _ _ _ _ _ Hauth).
  split; [exact Hrun|]. by split_and!.
Qed.

(** X14.  After a successful POST /blogs/, GET /blogs/{id} with the id of
    the row returned answers 200 with that same row, provided the id the
    store gave it was not already the id of a blog. *)
Theorem X14_created_blog_is_found
    authorization blog (w w1 : World) current_user :
  current_user_dependency authorization w = (Return current_user, w1) →
  ∃ row w' blog_id,
    POST_blogs authorization blog w = (Success 201 row, w') ∧
    row !! "id" = Some (VStr blog_id) ∧
    (Forall (λ b : dict, b !! "id" ≠ Some (VStr blog_id)) (blogs w) →
     (GET_blog blog_id w').1 = Success 200 row).
Proof.
  intros Hauth.
  destruct (post_blogs_world _ blog _ _ _ Hauth)
    as (row & w' & blog_id & Hrun & Hb & _ & _ & _ & Hid & _).
  exists row, w', blog_id. split_and!; [done..|].
  intros Hfresh. unfold GET_blog, serve. rewrite get_blog_handler_run.
  unfold blog_with_id. rewrite Hb.
  by rewrite (row_with_app_fresh "id" blog_id _ _ Hfresh).
Qed.

Lemma X14_created_blog_is_found_witness :
  POST_blogs (Some scenario.bob_token) demo.hello demo.world
    = (Success 201 scenario.hello_row, scenario.after_hello) ∧
  (GET_blog "5" scenario.after_hello).1 = Success 200 scenario.hello_row.
Proof.
  assert (POST_blogs (Some scenario.bob_token) demo.hello demo.world
          = (Success 201 scenario.hello_row, scenario.after_hello)) as Hpost
    by by_computation.
  assert (scenario.hello_row !! "id" = Some (VStr "5")) as Hfive
    by by_computation.
  split; [exact Hpost|].
  destruct (X14_created_blog_is_found (Some scenario.bob_token) demo.hello
              demo.world
              (add_events [select_by supabase "profiles" "id" "u2"] demo.world)
              demo.bob) as (row & w' & blog_id & Hrun & Hid & Hget).
  - by_computation.
  - rewrite Hpost in Hrun. injection Hrun as <- <-.
    rewrite Hfive in Hid. injection Hid as <-.
    apply Hget. repeat constructor; discriminate.
Defined.

(** X15.  A blog created with [published] false is listed by GET /blogs/me
    for its author right away, and by no page of GET /blogs/ (the id the
    store gave it not having been the id of a blog before). *)
Theorem X15_draft_is_listed_to_its_author_only
    authorization blog (w w1 : World) current_user :
  current_user_dependency authorization w = (Return current_user, w1) →
  BlogCreate.published blog = false →
  ∃ row w' blog_id,
    POST_blogs authorization blog w = (Success 201 row, w') ∧
    row !! "id" = Some (VStr blog_id) ∧
    (∃ mine, (GET_blogs_me authorization w').1 = Success 200 mine ∧
             row ∈ mine) ∧
    (Forall (λ b : dict, b !! "id" ≠ Some (VStr blog_id)) (blogs w) →
     ∀ skip limit rows,
       (GET_blogs skip limit w').1 = Success 200 rows →
       Forall (λ r : dict, r !! "id" ≠ Some (VStr blog_id)) rows).
Proof.
  intros Hauth Hdraft.
  destruct (post_blogs_world _ blog _ _ _ Hauth)
    as (row & w' & blog_id & Hrun & Hb & Hp & Hs & Hn & Hid & Ha & Hpub).
  exists row, w', blog_id. split_and!; [done..| |].
  - destruct (current_user_dependency_again _ _ w' _ _ Hauth Hs Hn Hp)
      as (w1' & Hauth' & Hreads).
    unfold GET_blogs_me. rewrite (serve_authenticated _ _ _ _ _ _ Hauth').
    unfold serve, routers_blogs.get_my_blogs.
    rewrite get_blogs_by_author_run. simpl.
    eexists. split; [done|].
    rewrite merge_sort_Permutation.
    destruct (only_reads_store _ _ Hreads) as (-> & _).
    apply list_elem_of_filter. split.
    + by apply matches_singleton_true.
    + rewrite Hb. apply elem_of_app. right. left.
  - intros Hfresh skip limit rows.
    unfold GET_blogs, serve, routers_blogs.get_blogs.
    rewrite get_blogs_run. simpl.
    case_bool_decide; simpl; [|done]. intros [= <-].
    destruct (published_page w' (Z.to_nat (skip + limit - 1 - skip + 1))
                (Z.to_nat skip)) as [Hpage _].
    eapply Forall_impl; [exact Hpage|].
    intros r (Hpublished & r0 & Hin & ->).
    rewrite embed_profile_lookup in Hpublished by done.
    rewrite embed_profile_lookup by done.
    rewrite Hb in Hin. apply elem_of_app in Hin as [Hin|Hin].
    + rewrite Forall_forall in Hfresh. by apply Hfresh.
    + apply list_elem_of_singleton in Hin as ->.
      rewrite Hpub, Hdraft in Hpublished. done.
Qed.

Lemma X15_draft_is_listed_to_its_author_only_witness :
  POST_blogs (Some scenario.bob_token) scenario.draft demo.world
    = (Success 201 scenario.draft_row, scenario.after_draft) ∧
  (∃ mine, (GET_blogs_me (Some scenario.bob_token) scenario.after_draft).1
             = Success 200 mine ∧ scenario.draft_row ∈ mine) ∧
  (∀ skip limit rows,
     (GET_blogs skip limit scenario.after_draft).1 = Success 200 rows →
     Forall (λ r : dict, r !! "id" ≠ Some (VStr "5")) rows).
Proof.
  assert (POST_blogs (Some scenario.bob_token) scenario.draft demo.world
          = (Success 201 scenario.draft_row, scenario.after_draft)) as Hpost
    by by_computation.
  assert (scenario.draft_row !! "id" = Some (VStr "5")) as Hfive
    by by_computation.
  split; [exact Hpost|].
  destruct (X15_draft_is_listed_to_its_author_only
              (Some scenario.bob_token) scenario.draft demo.world
              (add_events [select_by supabase "profiles" "id" "u2"] demo.world)
              demo.bob) as (row & w' & blog_id & Hrun & Hid & Hmine & Hpublic).
  - by_computation.
  - reflexivity.
  - rewrite Hpost in Hrun. injection Hrun as <- <-.
    rewrite Hfive in Hid. injection Hid as <-.
    split; [exact Hmine|]. apply Hpublic. repeat constructor; discriminate.
Defined.

(** ** Updating and deleting, then reading *)

Lemma patch_owner_world blog_id blog current_user row (w : World) :
  blog_with_id blog_id w = Some row →
  row !! "author_id"
    = Some (VStr (UUID.str (UserResponse.id current_user))) →
  ∃ w', serve 200 (routers_blogs.update_blog blog_id blog current_user
                     ≫= response_model) w
        = (Success 200 (BlogUpdate.model_dump_exclude_none blog ∪ row), w') ∧
        blogs w' = patched blog_id (BlogUpdate.model_dump_exclude_none blog)
                     (blogs w) ∧
        profiles w' = profiles w ∧ settings w' = settings w ∧ now w' = now w.
Proof.
  intros Hrow Hauthor. unfold serve.
  rewrite bind_run, update_blog_gate, Hrow, Hauthor. simpl.
  rewrite bool_decide_true by done. rewrite update_blog_run. simpl.
  case_bool_decide as Hp.
  - rewrite Hp. unfold blog_with_id in *. simpl. rewrite Hrow. simpl.
    eexists. split; [by rewrite (left_id_L ∅ (∪))|]. simpl.
    by rewrite patched_empty.
  - simpl. unfold blog_with_id in Hrow. unfold blog_with_id. simpl.
    rewrite Hrow. simpl. eexists. by split.
Qed.

Lemma delete_owner_world blog_id current_user row (w : World) :
  blog_with_id blog_id w = Some row →
  row !! "author_id"
    = Some (VStr (UUID.str (UserResponse.id current_user))) →
  ∃ w', serve 204 (routers_blogs.delete_blog blog_id current_user) w
        = (Success 204 (), w') ∧
        blogs w' = filter (λ r, ¬ matches [("id", VStr blog_id)] r) (blogs w) ∧
        profiles w' = profiles w ∧ settings w' = settings w ∧ now w' = now w.
Proof.
  intros Hrow Hauthor. unfold serve.
  rewrite delete_blog_gate, Hrow, Hauthor. simpl.
  rewrite bool_decide_true by done. eexists. by split.
Qed.

(** The owner's PATCH and DELETE, seen from the request. *)
Lemma owner_requests authorization blog_id blog (w w1 : World) u row :
  current_user_dependency authorization w = (Return u, w1) →
  blog_with_id blog_id w = Some row →
  row !! "author_id" = Some (VStr (UUID.str (UserResponse.id u))) →
  (∃ w', PATCH_blog authorization blog_id blog w
           = (Success 200 (BlogUpdate.model_dump_exclude_none blog ∪ row), w') ∧
         blogs w' = patched blog_id (BlogUpdate.model_dump_exclude_none blog)
                      (blogs w) ∧
         profiles w' = profiles w ∧ settings w' = settings w ∧
         now w' = now w) ∧
  (∃ w', DELETE_blog authorization blog_id w = (Success 204 (), w') ∧
         blogs w'
           = filter (λ r, ¬ matches [("id", VStr blog_id)] r) (blogs w) ∧
         profiles w' = profiles w ∧ settings w' = settings w ∧
         now w' = now w).
Proof.
  intros Hauth Hrow Hauthor.
  pose proof (current_user_dependency_only_reads _ _ _ _ Hauth) as Hreads.
  pose proof (blog_with_id_only_reads blog_id _ _ Hreads) as Hsame.
  destruct (only_reads_store _ _ Hreads) as (Hb & Hp & Hn & Hs).
  rewrite <- Hsame in Hrow. unfold PATCH_blog, DELETE_blog.
  rewrite !(serve_authenticated _ _ _ _ _ _ Hauth). split.
  - destruct (patch_owner_world blog_id blog _ _ _ Hrow Hauthor)
      as (w' & Hrun & Hb' & Hp' & Hs' & Hn').
    exists w'. split; [exact Hrun|]. by rewrite Hb', Hp', Hs', Hn', Hb.
  - destruct (delete_owner_world blog_id _ _ _ Hrow Hauthor)
      as (w' & Hrun & Hb' & Hp' & Hs' & Hn').
    exists w'. split; [exact Hrun|]. by rewrite Hb', Hp', Hs', Hn', Hb.
Qed.

(** X16.  After its author has deleted a blog, no row of the store has its
    id: GET /blogs/{id} answers 404, and so do a second DELETE and a PATCH
    with the same credentials. *)
Theorem X16_deleted_blog_is_gone
    authorization blog_id update (w w1 : World) current_user row :
  current_user_dependency authorization w = (Return current_user, w1) →
  blog_with_id blog_id w = Some row →
  row !! "author_id"
    = Some (VStr (UUID.str (UserResponse.id current_user))) →
  ∃ w',
    DELETE_blog authorization blog_id w = (Success 204 (), w') ∧
    Forall (λ b : dict, b !! "id" ≠ Some (VStr blog_id)) (blogs w') ∧
    (GET_blog blog_id w').1
      = Failure 404 ("Blog with id '" +:+ blog_id +:+ "' not found") [] ∧
    (DELETE_blog authorization blog_id w').1
      = Failure 404 "Blog not found" [] ∧
    (PATCH_blog authorization blog_id update w').1
      = Failure 404 "Blog not found" [].
Proof.
  intros Hauth Hrow Hauthor.
  destruct (owner_requests _ blog_id update _ _ _ _ Hauth Hrow Hauthor)
    as [_ (w' & Hrun & Hb & Hp & Hs & Hn)].
  exists w'. split; [exact Hrun|].
  assert (blog_with_id blog_id w' = None) as Hgone
    by (unfold blog_with_id; rewrite Hb; apply row_with_deleted).
  split; [by apply row_with_None|].
  split.
  { unfold GET_blog, serve. by rewrite get_blog_handler_run, Hgone. }
  destruct (current_user_dependency_again _ _ w' _ _ Hauth Hs Hn Hp)
    as (w1' & Hauth' & Hreads).
  rewrite <- (blog_with_id_only_reads blog_id _ _ Hreads) in Hgone.
  destruct (mutation_not_found _ current_user _ Hgone) as [Hpatch Hdelete].
  unfold DELETE_blog, PATCH_blog.
  rewrite !(serve_authenticated _ _ _ _ _ _ Hauth').
  split.
  - by rewrite Hdelete.
  - exact (f_equal fst (Hpatch update)).
Qed.

Lemma X16_deleted_blog_is_gone_witness :
  ∃ w',
    DELETE_blog (Some (demo.token_of "u1")) "b1" demo.world
      = (Success 204 (), w') ∧
    Forall (λ b : dict, b !! "id" ≠ Some (VStr "b1")) (blogs w') ∧
    (GET_blog "b1" w').1
      = Failure 404 ("Blog with id '" +:+ "b1" +:+ "' not found") [] ∧
    (DELETE_blog (Some (demo.token_of "u1")) "b1" w').1
      = Failure 404 "Blog not found" [] ∧
    (PATCH_blog (Some (demo.token_of "u1")) "b1" demo.retitle w').1
      = Failure 404 "Blog not found" [].
Proof.
  apply (X16_deleted_blog_is_gone (Some (demo.token_of "u1")) "b1"
           demo.retitle demo.world
           (add_events [select_by supabase "profiles" "id" "u1"] demo.world)
           demo.alice (demo.post "b1" "First post" "u1" true 10)).
  - by_computation.
  - by_computation.
  - by_computation.
Defined.

(** X17.  After a PATCH by the author, GET /blogs/{id} answers 200 with
    the very row the PATCH returned: the stored row overlaid with the
    fields supplied. *)
Theorem X17_patched_blog_is_read_back
    authorization blog_id blog (w w1 : World) current_user row :
  current_user_dependency authorization w = (Return current_user, w1) →
  blog_with_id blog_id w = Some row →
  row !! "author_id"
    = Some (VStr (UUID.str (UserResponse.id current_user))) →
  let payload := BlogUpdate.model_dump_exclude_none blog in
  ∃ w',
    PATCH_blog authorization blog_id blog w
      = (Success 200 (payload ∪ row), w') ∧
    (GET_blog blog_id w').1 = Success 200 (payload ∪ row).
Proof.
  intros Hauth Hrow Hauthor payload.
  destruct (owner_requests _ blog_id blog _ _ _ _ Hauth Hrow Hauthor)
    as [(w' & Hrun & Hb & _) _].
  exists w'. split; [exact Hrun|].
  unfold GET_blog, serve. rewrite get_blog_handler_run.
  unfold blog_with_id in *. rewrite Hb.
  rewrite row_with_patched by (by apply model_dump_exclude_none_other).
  by rewrite Hrow.
Qed.

Lemma X17_patched_blog_is_read_back_witness :
  ∃ w',
    PATCH_blog (Some (demo.token_of "u1")) "b1" demo.retitle demo.world
      = (Success 200
           (BlogUpdate.model_dump_exclude_none demo.retitle
            ∪ demo.post "b1" "First post" "u1" true 10), w') ∧
    (GET_blog "b1" w').1
      = Success 200
          (BlogUpdate.model_dump_exclude_none demo.retitle
           ∪ demo.post "b1" "First post" "u1" true 10).
Proof.
  apply (X17_patched_blog_is_read_back (Some (demo.token_of "u1")) "b1"
           demo.retitle demo.world
           (add_events [select_by supabase "profiles" "id" "u1"] demo.world)
           demo.alice (demo.post "b1" "First post" "u1" true 10)).
  - by_computation.
  - by_computation.
  - by_computation.
Defined.

(** X18.  Sending the same PATCH a second time changes nothing more: the
    author gets the same answer and the blogs are as the first PATCH left
    them. *)
Theorem X18_patch_is_idempotent
    authorization blog_id blog (w w1 : World) current_user row :
  current_user_dependency authorization w = (Return current_user, w1) →
  blog_with_id blog_id w = Some row →
  row !! "author_id"
    = Some (VStr (UUID.str (UserResponse.id current_user))) →
  let payload := BlogUpdate.model_dump_exclude_none blog in
  ∃ w' w'',
    PATCH_blog authorization blog_id blog w
      = (Success 200 (payload ∪ row), w') ∧
    PATCH_blog authorization blog_id blog w'
      = (Success 200 (payload ∪ row), w'') ∧
    blogs w'' = blogs w'.
Proof.
  intros Hauth Hrow Hauthor payload.
  assert (payload !! "id" = None) as Hid
    by (by apply model_dump_exclude_none_other).
  assert (payload !! "author_id" = None) as Haid
    by (by apply model_dump_exclude_none_other).
  destruct (owner_requests _ blog_id blog _ _ _ _ Hauth Hrow Hauthor)
    as [(w' & Hrun & Hb & Hp & Hs & Hn) _].
  destruct (current_user_dependency_again _ _ w' _ _ Hauth Hs Hn Hp)
    as (w1' & Hauth' & _).
  assert (blog_with_id blog_id w' = Some (payload ∪ row)) as Hrow'.
  { unfold blog_with_id in *. rewrite Hb, row_with_patched by done.
    by rewrite Hrow. }
  assert ((payload ∪ row) !! "author_id"
          = Some (VStr (UUID.str (UserResponse.id current_user)))) as Hauthor'
    by by rewrite lookup_union_r.
  destruct (owner_requests _ blog_id blog _ _ _ _ Hauth' Hrow' Hauthor')
    as [(w'' & Hrun' & Hb' & _) _].
  exists w', w''. split; [exact Hrun|].
  fold payload in Hrun', Hb'.
  rewrite (assoc_L (∪)), (idemp_L (∪)) in Hrun'.
  split; [exact Hrun'|].
  by rewrite Hb', Hb, patched_patched.
Qed.

Lemma X18_patch_is_idempotent_witness :
  ∃ w' w'',
    PATCH_blog (Some (demo.token_of "u1")) "b1" demo.retitle demo.world
      = (Success 200
           (BlogUpdate.model_dump_exclude_none demo.retitle
            ∪ demo.post "b1" "First post" "u1" true 10), w') ∧
    PATCH_blog (Some (demo.token_of "u1")) "b1" demo.retitle w'
      = (Success 200
           (BlogUpdate.model_dump_exclude_none demo.retitle
            ∪ demo.post "b1" "First post" "u1" true 10), w'') ∧
    blogs w'' = blogs w'.
Proof.
  apply (X18_patch_is_idempotent (Some (demo.token_of "u1")) "b1"
           demo.retitle demo.world
           (add_events [select_by supabase "profiles" "id" "u1"] demo.world)
           demo.alice (demo.post "b1" "First post" "u1" true 10)).
  - by_computation.
  - by_computation.
  - by_computation.
Defined.

(** ** What no blog request does *)

Lemma provider_calls_app (w w' : World) evs :
  trace w' = (trace w ++ evs)%list →
  Forall (λ e, is_provider_call e = false) evs →
  filter is_provider_call (trace w') = filter is_provider_call (trace w).
Proof.
  intros -> Hevs. rewrite filter_app.
  assert (filter is_provider_call evs = []) as ->; [|apply app_nil_r].
  induction Hevs as [|e evs He _ IH]; [done|].
  rewrite filter_cons, IH. by rewrite He.
Qed.

Lemma only_reads_provider_calls (w w' : World) :
  only_reads w w' →
  filter is_provider_call (trace w') = filter is_provider_call (trace w).
Proof.
  intros (evs & -> & Hevs). eapply provider_calls_app; [done|].
  eapply Forall_impl; [exact Hevs|]. by intros e [_ He].
Qed.

(** Whatever its branch, the PATCH handler leaves the profiles alone, calls
    no provider, and leaves the blogs as they were or patched. *)
Lemma update_handler_world blog_id blog u (w : World) :
  let w' := (routers_blogs.update_blog blog_id blog u w).2 in
  profiles w' = profiles w ∧
  filter is_provider_call (trace w') = filter is_provider_call (trace w) ∧
  (blogs w' = blogs w ∨
   blogs w' = patched blog_id (BlogUpdate.model_dump_exclude_none blog)
                (blogs w)).
Proof.
  rewrite update_blog_gate. simpl.
  assert (∀ evs, Forall (λ e, is_provider_call e = false) evs →
            filter is_provider_call (trace (add_events evs w))
            = filter is_provider_call (trace w)) as Hsel.
  { intros evs Hevs. by eapply provider_calls_app. }
  destruct (blog_with_id blog_id w) as [row|];
    [|split_and!; [done|apply Hsel; by repeat constructor|by left]].
  destruct (row !! "author_id") as [a|];
    [|split_and!; [done|apply Hsel; by repeat constructor|by left]].
  case_bool_decide;
    [|split_and!; [done|apply Hsel; by repeat constructor|by left]].
  rewrite update_blog_run. simpl. case_bool_decide; simpl.
  - split_and!; [done| |by left].
    rewrite !filter_app. cbn. by rewrite !app_nil_r.
  - split_and!; [done| |by right].
    rewrite !filter_app. cbn. by rewrite !app_nil_r.
Qed.

Lemma delete_handler_world blog_id u (w : World) :
  let w' := (routers_blogs.delete_blog blog_id u w).2 in
  profiles w' = profiles w ∧
  filter is_provider_call (trace w') = filter is_provider_call (trace w) ∧
  (blogs w' = blogs w ∨
   blogs w' = filter (λ r, ¬ matches [("id", VStr blog_id)] r) (blogs w)).
Proof.
  rewrite delete_blog_gate. simpl.
  assert (∀ evs, Forall (λ e, is_provider_call e = false) evs →
            filter is_provider_call (trace (add_events evs w))
            = filter is_provider_call (trace w)) as Hsel.
  { intros evs Hevs. by eapply provider_calls_app. }
  destruct (blog_with_id blog_id w) as [row|];
    [|split_and!; [done|apply Hsel; by repeat constructor|by left]].
  destruct (row !! "author_id") as [a|];
    [|split_and!; [done|apply Hsel; by repeat constructor|by left]].
  case_bool_decide;
    [|split_and!; [done|apply Hsel; by repeat constructor|by left]].
  simpl. split_and!; [done| |by right].
  rewrite !filter_app. cbn. by rewrite !app_nil_r.
Qed.

(** A protected endpoint ends in the world the dependency left, or in the
    world its handler left from there. *)
Lemma protected_world {A} code authorization (h : UserResponse.t → M A) w :
  ∃ w1, only_reads w w1 ∧
        ((serve code (current_user_dependency authorization ≫= h) w).2 = w1 ∨
         ∃ u, (serve code (current_user_dependency authorization ≫= h) w).2
              = (h u w1).2).
Proof.
  destruct (current_user_dependency authorization w) as [[u|e] w1] eqn:Hauth;
    exists w1; (split; [by eapply current_user_dependency_only_reads|]).
  - right. exists u. by rewrite (serve_authenticated _ _ _ _ _ _ Hauth),
      serve_world.
  - left. by rewrite (serve_unauthenticated _ _ _ _ _ _ Hauth), serve_world.
Qed.

Lemma patch_request_world authorization blog_id blog (w : World) :
  let w' := (PATCH_blog authorization blog_id blog w).2 in
  profiles w' = profiles w ∧
  filter is_provider_call (trace w') = filter is_provider_call (trace w) ∧
  (blogs w' = blogs w ∨
   blogs w' = patched blog_id (BlogUpdate.model_dump_exclude_none blog)
                (blogs w)).
Proof.
  unfold PATCH_blog.
  destruct (protected_world 200 authorization
              (λ u, routers_blogs.update_blog blog_id blog u
                    ≫= λ updated, response_model updated) w)
    as (w1 & Hreads & [Hw|[u Hw]]).
  - simpl. rewrite Hw. destruct (only_reads_store _ _ Hreads) as (-> & -> & _).
    split_and!; [done|by apply only_reads_provider_calls|by left].
  - simpl. rewrite Hw.
    rewrite bind_world_return by (by intros [] ?).
    destruct (update_handler_world blog_id blog u w1) as (Hp & Ht & Hb).
    destruct (only_reads_store _ _ Hreads) as (Hb1 & Hp1 & _).
    simpl in *. rewrite Hp, Ht, Hp1, <- Hb1.
    split_and!; [done|by apply only_reads_provider_calls|done].
Qed.

Lemma delete_request_world authorization blog_id (w : World) :
  let w' := (DELETE_blog authorization blog_id w).2 in
  profiles w' = profiles w ∧
  filter is_provider_call (trace w') = filter is_provider_call (trace w) ∧
  (blogs w' = blogs w ∨
   blogs w' = filter (λ r, ¬ matches [("id", VStr blog_id)] r) (blogs w)).
Proof.
  unfold DELETE_blog.
  destruct (protected_world 204 authorization
              (λ u, routers_blogs.delete_blog blog_id u) w)
    as (w1 & Hreads & [Hw|[u Hw]]).
  - simpl. rewrite Hw. destruct (only_reads_store _ _ Hreads) as (-> & -> & _).
    split_and!; [done|by apply only_reads_provider_calls|by left].
  - simpl. rewrite Hw.
    destruct (delete_handler_world blog_id u w1) as (Hp & Ht & Hb).
    destruct (only_reads_store _ _ Hreads) as (Hb1 & Hp1 & _).
    simpl in *. rewrite Hp, Ht, Hp1, <- Hb1.
    split_and!; [done|by apply only_reads_provider_calls|done].
Qed.

(** X19.  No PATCH request, whoever sends it and whatever it carries,
    moves a blog to another author or gives it another id or creation
    time: every row of the store is still at its place afterwards with the
    same [id], [author_id] and [created_at]. *)
Theorem X19_patch_never_reassigns
    authorization blog_id blog (w : World) (i : nat) (r : dict) :
  blogs w !! i = Some r →
  ∃ r',
    blogs (PATCH_blog authorization blog_id blog w).2 !! i = Some r' ∧
    r' !! "id" = r !! "id" ∧
    r' !! "author_id" = r !! "author_id" ∧
    r' !! "created_at" = r !! "created_at".
Proof.
  intros Hi.
  destruct (patch_request_world authorization blog_id blog w)
    as (_ & _ & [Hb|Hb]); simpl in Hb; rewrite Hb.
  - by exists r.
  - destruct (patched_frame blog_id
                (BlogUpdate.model_dump_exclude_none blog) _ _ _ Hi)
      as (r' & Hr' & Hkeep & _).
    exists r'. split; [done|].
    split_and!; apply Hkeep; by apply model_dump_exclude_none_other.
Qed.

Lemma X19_patch_never_reassigns_witness :
  ∃ r',
    blogs (PATCH_blog (Some (demo.token_of "u1")) "b1" demo.retitle
             demo.world).2 !! 0%nat = Some r' ∧
    r' !! "id" = demo.post "b1" "First post" "u1" true 10 !! "id" ∧
    r' !! "author_id"
      = demo.post "b1" "First post" "u1" true 10 !! "author_id" ∧
    r' !! "created_at"
      = demo.post "b1" "First post" "u1" true 10 !! "created_at".
Proof.
  apply (X19_patch_never_reassigns (Some (demo.token_of "u1")) "b1"
           demo.retitle demo.world 0
           (demo.post "b1" "First post" "u1" true 10)).
  reflexivity.
Defined.

(** X20.  No DELETE request removes or alters a blog with another id: the
    rows whose id differs from the one named are the same, in the same
    order, before and after, and the profiles are untouched. *)
Theorem X20_delete_spares_other_blogs authorization blog_id (w : World) :
  let w' := (DELETE_blog authorization blog_id w).2 in
  filter (λ b : dict, b !! "id" ≠ Some (VStr blog_id)) (blogs w')
  = filter (λ b : dict, b !! "id" ≠ Some (VStr blog_id)) (blogs w) ∧
  blogs w' `sublist_of` blogs w ∧
  profiles w' = profiles w.
Proof.
  destruct (delete_request_world authorization blog_id w)
    as (Hp & _ & [Hb|Hb]); simpl in *; rewrite Hb, Hp.
  - done.
  - split_and!; [|apply sublist_filter|done].
    apply list_filter_filter_l. intros b Hb' Hm. apply Hb'.
    by apply matches_singleton_true.
Qed.

Lemma patched_absent blog_id (payload : dict) rows :
  Forall (λ b : dict, b !! "id" ≠ Some (VStr blog_id)) rows →
  patched blog_id payload rows = rows.
Proof.
  intros Habsent. unfold patched.
  induction Habsent as [|r rows Hr _ IH]; [done|].
  rewrite fmap_cons, IH. f_equal.
  destruct (decide (matches [("id", VStr blog_id)] r)) as [Hm|Hm].
  - by apply matches_singleton_true in Hm.
  - by rewrite (Is_true_false_1 _ Hm).
Qed.

Lemma filter_absent blog_id (rows : list dict) :
  Forall (λ b : dict, b !! "id" ≠ Some (VStr blog_id)) rows →
  filter (λ r, ¬ matches [("id", VStr blog_id)] r) rows = rows.
Proof.
  intros Habsent. induction Habsent as [|r rows Hr _ IH]; [done|].
  rewrite filter_cons, IH. rewrite decide_True; [done|].
  intros Hm. by apply matches_singleton_true in Hm.
Qed.

(** X21.  [crud.blog.delete_blog] returns [True] exactly when some row had
    the id.  Afterwards no row has it, and when it returns [False] the
    blogs are as before. *)
Theorem X21_delete_blog_reports db blog_id (w : World) :
  ∃ deleted w',
    crud_blog.delete_blog db blog_id w = (Return deleted, w') ∧
    (deleted = true ↔
     ∃ b : dict, b ∈ blogs w ∧ b !! "id" = Some (VStr blog_id)) ∧
    Forall (λ b : dict, b !! "id" ≠ Some (VStr blog_id)) (blogs w') ∧
    (deleted = false → blogs w' = blogs w).
Proof.
  rewrite delete_blog_run. eexists _, _. split; [done|]. simpl.
  split_and!.
  - destruct (row_with "id" blog_id (blogs w)) as [b|] eqn:Hfound.
    + apply row_with_Some in Hfound as Hb. destruct Hb as (Hin & Hid & _).
      unfold row_with in Hfound.
      destruct (filter _ (blogs w)); [done|]. simpl. split; eauto.
    + apply row_with_None in Hfound as Hnone.
      unfold row_with in Hfound.
      destruct (filter _ (blogs w)); [|done]. simpl.
      split; [done|]. intros (b & Hin & Hid).
      rewrite Forall_forall in Hnone. by destruct (Hnone b Hin).
  - apply row_with_None. apply row_with_deleted.
  - intros Hfalse. apply filter_absent. apply row_with_None.
    unfold row_with. by destruct (filter _ (blogs w)).
Qed.

Lemma X21_delete_blog_reports_witness :
  ∃ deleted w',
    crud_blog.delete_blog supabase "b9" demo.world = (Return deleted, w') ∧
    deleted = false ∧ blogs w' = blogs demo.world.
Proof.
  destruct (X21_delete_blog_reports supabase "b9" demo.world)
    as (deleted & w' & Hrun & Hiff & _ & Hsame).
  assert (deleted = false) as Hd.
  { destruct deleted; [|done].
    destruct (proj1 Hiff eq_refl) as (b & Hin & Hid).
    exfalso. revert b Hin Hid.
    apply (proj1 (Forall_forall
                    (λ b : dict, b !! "id" ≠ Some (VStr "b9")) _)).
    repeat constructor; discriminate. }
  exists deleted, w'. split; [exact Hrun|]. split; [exact Hd|].
  exact (Hsame Hd).
Defined.

(** X22.  [crud.blog.update_blog] on an id that no row has returns [None]
    and leaves the blogs as they are, whatever fields it is given. *)
Theorem X22_update_blog_absent db blog_id blog (w : World) :
  Forall (λ b : dict, b !! "id" ≠ Some (VStr blog_id)) (blogs w) →
  ∃ w',
    crud_blog.update_blog db blog_id blog w = (Return None, w') ∧
    blogs w' = blogs w.
Proof.
  intros Habsent. rewrite update_blog_run. simpl.
  assert (blog_with_id blog_id w = None) as ->
    by by apply row_with_None.
  case_bool_decide; eexists; (split; [done|]); simpl; [done|].
  by apply patched_absent.
Qed.

Lemma X22_update_blog_absent_witness :
  ∃ w',
    crud_blog.update_blog supabase "b9" demo.retitle demo.world
      = (Return None, w') ∧
    blogs w' = blogs demo.world.
Proof.
  apply (X22_update_blog_absent supabase "b9" demo.retitle demo.world).
  repeat constructor; discriminate.
Defined.

Lemma post_request_world authorization blog (w : World) :
  let w' := (POST_blogs authorization blog w).2 in
  profiles w' = profiles w ∧
  filter is_provider_call (trace w') = filter is_provider_call (trace w).
Proof.
  unfold POST_blogs.
  destruct (protected_world 201 authorization
              (λ u, routers_blogs.create_blog blog u) w)
    as (w1 & Hreads & [Hw|[u Hw]]); simpl; rewrite Hw.
  - destruct (only_reads_store _ _ Hreads) as (_ & -> & _).
    split; [done|by apply only_reads_provider_calls].
  - unfold routers_blogs.create_blog. rewrite create_blog_run. simpl.
    destruct (only_reads_store _ _ Hreads) as (_ & -> & _).
    split; [done|]. rewrite filter_app. cbn. rewrite app_nil_r.
    by apply only_reads_provider_calls.
Qed.

Lemma register_request_blogs user_data (w : World) :
  blogs (POST_auth_register user_data w).2 = blogs w.
Proof.
  unfold POST_auth_register. rewrite serve_world.
  pose proof (register_run user_data w) as Hrun. simpl in Hrun.
  destruct (row_with "email" _ (profiles w)) as [row|] eqn:Hfree;
    [by rewrite Hrun|].
  destruct (sign_up_reply w _ _) as [msg|[[auth_user|]]] eqn:Hreply;
    [by rewrite Hrun| |by rewrite Hrun].
  destruct (register_accepted user_data w auth_user Hfree Hreply)
    as (token & w' & -> & _ & _ & Hb & _). done.
Qed.

(** X23.  The routers keep to their own table.  No request to POST
    /blogs/, PATCH /blogs/{id} or DELETE /blogs/{id} changes the profiles or
    calls the authentication provider; no registration and no login
    changes the blogs. *)
Theorem X23_routers_keep_to_their_table
    authorization blog_id blog update user_data username password
    (w : World) :
  (profiles (POST_blogs authorization blog w).2 = profiles w ∧
   profiles (PATCH_blog authorization blog_id update w).2 = profiles w ∧
   profiles (DELETE_blog authorization blog_id w).2 = profiles w) ∧
  (filter is_provider_call (trace (POST_blogs authorization blog w).2)
     = filter is_provider_call (trace w) ∧
   filter is_provider_call
     (trace (PATCH_blog authorization blog_id update w).2)
     = filter is_provider_call (trace w) ∧
   filter is_provider_call (trace (DELETE_blog authorization blog_id w).2)
     = filter is_provider_call (trace w)) ∧
  blogs (POST_auth_register user_data w).2 = blogs w ∧
  blogs (POST_auth_login username password w).2 = blogs w.
Proof.
  destruct (post_request_world authorization blog w) as (Hp1 & Ht1).
  destruct (patch_request_world authorization blog_id update w)
    as (Hp2 & Ht2 & _).
  destruct (delete_request_world authorization blog_id w) as (Hp3 & Ht3 & _).
  split_and!; try done.
  - apply register_request_blogs.
  - unfold POST_auth_login. by rewrite serve_world, login_run.
Qed.

(** ** Requests that only read *)

Lemma only_reads_event (e : Event) (w : World) :
  is_mutation e = false → is_provider_call e = false →
  only_reads w (add_events [e] w).
Proof. intros. exists [e]. split; [done|]. by repeat constructor. Qed.

(** X24.  The GET endpoints only read: the health check, both listings,
    the lookups of a blog and of a user, and GET /auth/me leave the tables
    as they were and issue neither a write nor a provider call, for every
    input. *)
Theorem X24_get_requests_only_read
    authorization skip limit blog_id user_id (w : World) :
  only_reads w (GET_root w).2 ∧
  only_reads w (GET_blogs skip limit w).2 ∧
  only_reads w (GET_blogs_me authorization w).2 ∧
  only_reads w (GET_blog blog_id w).2 ∧
  only_reads w (GET_user user_id w).2 ∧
  only_reads w (GET_auth_me authorization w).2.
Proof.
  split_and!.
  - apply only_reads_refl.
  - unfold GET_blogs, routers_blogs.get_blogs.
    rewrite serve_world, get_blogs_run. simpl.
    case_bool_decide; by apply only_reads_event.
  - unfold GET_blogs_me.
    destruct (protected_world 200 authorization
                (λ u, routers_blogs.get_my_blogs u) w)
      as (w1 & Hreads & [Hw|[u Hw]]); rewrite Hw; [done|].
    unfold routers_blogs.get_my_blogs. rewrite get_blogs_by_author_run.
    eapply only_reads_trans; [done|]. by apply only_reads_event.
  - unfold GET_blog. rewrite serve_world, get_blog_handler_run.
    apply only_reads_select.
  - unfold GET_user. rewrite serve_world, get_user_handler_run.
    apply only_reads_select.
  - unfold GET_auth_me.
    by destruct (protected_world 200 authorization
                   (λ u, routers_auth.get_me u) w)
      as (w1 & Hreads & [Hw|[u Hw]]); rewrite Hw.
Qed.

(** ** Pages of the public listing *)

(** The published rows, newest first: what GET /blogs/ pages through. *)
Lemma get_blogs_served skip limit (w : World) :
  0 ≤ skip → 0 ≤ limit →
  (GET_blogs skip limit w).1
  = Success 200
      (embed_profile (profiles w) <$>
         take (Z.to_nat limit)
           (drop (Z.to_nat skip)
              (merge_sort (row_before "created_at" true)
                 (filter (λ r, matches [("published", VBool true)] r)
                    (blogs w))))).
Proof.
  intros Hs Hl. unfold GET_blogs, serve, routers_blogs.get_blogs.
  rewrite get_blogs_run. simpl. rewrite bool_decide_true by lia. simpl.
  by replace (skip + limit - 1 - skip + 1) with limit by lia.
Qed.

(** X25.  A page of GET /blogs/ holds [limit] rows, or what is left of the
    published blogs after the first [skip] when that is less. *)
Theorem X25_page_size skip limit (w : World) :
  0 ≤ skip → 0 ≤ limit →
  ∃ rows,
    (GET_blogs skip limit w).1 = Success 200 rows ∧
    length rows
    = (Z.to_nat limit `min`
       (length (filter (λ b : dict, b !! "published" = Some (VBool true))
                  (blogs w)) - Z.to_nat skip))%nat.
Proof.
  intros Hs Hl. eexists. split; [by apply get_blogs_served|].
  rewrite length_fmap, length_take, length_drop.
  rewrite merge_sort_Permutation.
  do 3 f_equal. apply list_filter_iff. intros r.
  apply matches_singleton_true.
Qed.

Lemma X25_page_size_witness :
  ∃ rows,
    (GET_blogs 1 20 demo.world).1 = Success 200 rows ∧
    length rows
    = (Z.to_nat 20 `min`
       (length (filter (λ b : dict, b !! "published" = Some (VBool true))
                  (blogs demo.world)) - Z.to_nat 1))%nat.
Proof. apply (X25_page_size 1 20 demo.world); lia. Defined.

(** X26.  Pages follow one another without gap or overlap: the page of
    [a] rows after [skip], followed by the page of [b] rows after
    [skip + a], is the page of [a + b] rows after [skip]. *)
Theorem X26_pages_compose skip a b (w : World) :
  0 ≤ skip → 0 ≤ a → 0 ≤ b →
  ∃ first second both,
    (GET_blogs skip a w).1 = Success 200 first ∧
    (GET_blogs (skip + a) b w).1 = Success 200 second ∧
    (GET_blogs skip (a + b) w).1 = Success 200 both ∧
    both = (first ++ second)%list.
Proof.
  intros Hs Ha Hb. eexists _, _, _.
  split_and!; [apply get_blogs_served; lia..|].
  rewrite <- fmap_app. f_equal.
  rewrite !Z2Nat.inj_add by lia.
  rewrite <- take_take_drop. f_equal. f_equal.
  rewrite drop_drop. done.
Qed.

Lemma X26_pages_compose_witness :
  ∃ first second both,
    (GET_blogs 0 1 demo.world).1 = Success 200 first ∧
    (GET_blogs (0 + 1) 5 demo.world).1 = Success 200 second ∧
    (GET_blogs 0 (1 + 5) demo.world).1 = Success 200 both ∧
    both = (first ++ second)%list.
Proof. apply (X26_pages_compose 0 1 5 demo.world); lia. Defined.




